(** * Sector and ring geometry: a shallow embedding and its properties

    The development follows [Source/Core/SectorGeometry.js],
    [Source/Core/RingGeometry.js] and [Source/Workers/createRingGeometry.js].

    Numbers are modelled over the real line: a JavaScript number is a real
    [R], arithmetic is exact, and [Math.cos], [Math.sin], [Math.ceil] are
    [cos], [sin] and [Zceil].  Infinities, rounding and allocation limits of
    typed arrays are outside the model; the one non-real number value the
    constructors can meet, NaN, is kept as a separate value.  Typed arrays
    are lists updated in place with stdpp's [<[i:=v]>], whose silence on an
    out-of-range index is the behaviour of a typed-array store.

    [CesiumMath.toRadians], [defined], [defaultValue] and [Cartesian3] are
    not among the three files; each is modelled where it is first needed and
    marked as such.  The ellipse outline generator, the polygon builder and
    the transfer of geometries are parameters. *)

From Stdlib Require Import Reals Lra ZArith Lia String List.
From stdpp Require Import base list.
From Equations Require Import Equations.
Import ListNotations.

Local Open Scope Z_scope.
Local Open Scope R_scope.
Local Open Scope nat_scope.

(** ** Abrupt completion *)

Inductive Error : Type :=
| DeveloperError (message : string)
| RangeError
| TypeError.

Inductive Completion (A : Type) : Type :=
| Return (a : A)
| Throw (e : Error).
Arguments Return {A} a.
Arguments Throw {A} e.

#[global] Instance Completion_ret : MRet Completion := fun A a => Return a.
#[global] Instance Completion_bind : MBind Completion := fun A B k c =>
  match c with
  | Return a => k a
  | Throw e => Throw e
  end.

Definition isDeveloperError {A : Type} (c : Completion A) : Prop :=
  exists message, c = Throw (DeveloperError message).

(** ** Geometry values *)

Record Cartesian3 (A : Type) : Type := fromElements { x : A; y : A; z : A }.
Arguments fromElements {A} x y z.
Arguments x {A} c.
Arguments y {A} c.
Arguments z {A} c.

Inductive PrimitiveType : Type := POINTS | LINES | TRIANGLES.

Inductive ComponentDatatype : Type := FLOAT | DOUBLE.

Module BoundingSphere.
Record t : Type := { center : Cartesian3 R; radius : R }.
End BoundingSphere.

Record GeometryAttribute : Type := {
  componentDatatype : ComponentDatatype;
  componentsPerAttribute : nat;
  values : list R
}.

Record Geometry : Type := {
  position : GeometryAttribute;
  indices : list Z;
  primitiveType : PrimitiveType;
  boundingSphere : BoundingSphere.t
}.

(** ** Typed arrays *)

(** [new Float64Array(n)] and [new Uint16Array(n)]: [n] zeroes, or a
    RangeError when the length is negative. *)
Definition newTypedArray {A : Type} (zero : A) (n : Z) : Completion (list A) :=
  if (n <? 0)%Z then Throw RangeError else Return (repeat zero (Z.to_nat n)).

(** The value a [Uint16Array] keeps of a stored integer. *)
Definition toUint16 (v : Z) : Z := (v mod 2 ^ 16)%Z.

(** Modelled from the spec: [CesiumMath.toRadians] and
    [CesiumMath.TWO_PI] are not under src/; the spec has the rotation
    "converted to radians" and the sector angle bounded by 2π. *)
Definition RADIANS_PER_DEGREE : R := (PI / 180)%R.
Definition toRadians (degrees : R) : R := (degrees * RADIANS_PER_DEGREE)%R.
Definition TWO_PI : R := (2 * PI)%R.

(** ** JavaScript values

    The values an options object can hold in a field: [undefined], a
    boolean, a number (a real, or NaN), or an object known by its
    reference.  Objects stand for values without a numeric primitive value
    (a plain object, a [Cartesian3]); strings are left out, their conversion
    to numbers being the only thing the constructors would need of them. *)
Inductive JsValue : Type :=
| JsUndefined
| JsBoolean (b : bool)
| JsNumber (v : R)
| JsNaN
| JsObject (ref : nat).

Definition typeof (v : JsValue) : string :=
  match v with
  | JsUndefined => "undefined"
  | JsBoolean _ => "boolean"
  | JsNumber _ | JsNaN => "number"
  | JsObject _ => "object"
  end.

(** The conversion to a number that [*], [<], [<=], [>] and [>=] apply to
    their operands; [None] is NaN. *)
Definition ToNumber (v : JsValue) : option R :=
  match v with
  | JsUndefined => None
  | JsBoolean b => Some (if b then 1%R else 0%R)
  | JsNumber v => Some v
  | JsNaN => None
  | JsObject _ => None
  end.

#[global] Instance Rle_decision (a b : R) : Decision (a <= b)%R := Rle_dec a b.
#[global] Instance Rlt_decision (a b : R) : Decision (a < b)%R := Rlt_dec a b.

(** A comparison with NaN on either side is false. *)
Definition js_compare (cmp : R -> R -> bool) (a b : JsValue) : bool :=
  match ToNumber a, ToNumber b with
  | Some p, Some q => cmp p q
  | _, _ => false
  end.

Definition js_lt : JsValue -> JsValue -> bool := js_compare (fun p q => bool_decide (p < q)%R).
Definition js_le : JsValue -> JsValue -> bool := js_compare (fun p q => bool_decide (p <= q)%R).
Definition js_gt : JsValue -> JsValue -> bool := js_compare (fun p q => bool_decide (q < p)%R).
Definition js_ge : JsValue -> JsValue -> bool := js_compare (fun p q => bool_decide (q <= p)%R).

Definition js_mul (a b : JsValue) : JsValue :=
  match ToNumber a, ToNumber b with
  | Some p, Some q => JsNumber (p * q)
  | _, _ => JsNaN
  end.

(** Modelled from the spec: [defined] and [defaultValue] are not under
    src/; a field is missing when it is [undefined], and a missing optional
    field takes its default. *)
Definition defined (v : JsValue) : bool :=
  match v with
  | JsUndefined => false
  | _ => true
  end.

Definition defaultValue (a b : JsValue) : JsValue :=
  if defined a then a else b.

(** [defaultValue] on the argument of a constructor, where [None] is a
    call without the argument. *)
Definition defaultArgument {A : Type} (a : option A) (b : A) : A :=
  match a with
  | Some v => v
  | None => b
  end.

(** Modelled from the spec: [CesiumMath.toRadians] is not under src/; the
    spec has the angles "converted to radians".  This is the value the
    conversion returns, the product [degrees * RADIANS_PER_DEGREE]. *)
Definition js_toRadians (degrees : JsValue) : JsValue :=
  js_mul degrees (JsNumber RADIANS_PER_DEGREE).

(** Modelled from the spec: [CesiumMath.toRadians] is not under src/; the
    spec makes every violated invariant of the sector parameters, a missing
    sector angle among them, a failure of the construction.  The conversion
    of a missing value throws "degrees is required."; that of any other
    value returns the product. *)
Definition CesiumMath_toRadians (degrees : JsValue) : Completion JsValue :=
  if defined degrees then Return (js_toRadians degrees)
  else Throw (DeveloperError "degrees is required.").

Module Sector.

(** An options object with the fields of a sector: over [JsValue] what the
    constructor receives, over [R] what [computeSector] works on.  The
    constructor also reads [options.ellipsoid], defaults it and never uses
    it; the field is left out. *)
Record Options (V : Type) : Type := {
  radius : V;
  sectorAngle : V;
  rotation : V;
  granularity : V
}.
Arguments radius {V} o.
Arguments sectorAngle {V} o.
Arguments rotation {V} o.
Arguments granularity {V} o.

(** [numPts = 1 + Math.ceil(sectorAngle / granularity)] *)
Definition numPts (options : Options R) : Z :=
  (1 + Zceil (sectorAngle options / granularity options))%Z.

(** [theta = sectorAngle / (numPts - 1)] *)
Definition theta (options : Options R) : R :=
  (sectorAngle options / IZR (numPts options - 1))%R.

(** The update of the direction at the end of the body of the first loop. *)
Definition rotateStep (cosTheta sinTheta : R) (d : R * R) : R * R :=
  let tmp := fst d in
  ((cosTheta * tmp - sinTheta * snd d)%R, (sinTheta * tmp + cosTheta * snd d)%R).

(** [for(i = 3; i < positions.length; i++) { positions[i] = x * radius;
    positions[++i] = y * radius; positions[++i] = 0.0; ... }] *)
Equations? fillPositions (radius cosTheta sinTheta : R) (i : nat) (d : R * R)
    (positions : list R) : list R by wf (length positions - i) lt :=
  fillPositions radius cosTheta sinTheta i d positions with lt_dec i (length positions) := {
    | left _ =>
        fillPositions radius cosTheta sinTheta (i + 3) (rotateStep cosTheta sinTheta d)
          (<[i + 2 := 0%R]> (<[i + 1 := (snd d * radius)%R]> (<[i := (fst d * radius)%R]> positions)));
    | right _ => positions }.
Proof. rewrite !length_insert. lia. Qed.

(** [i = 1; for(j = 0; j < indices.length; j++) { indices[j] = 0;
    indices[++j] = i; indices[++j] = ++i; }]; [fuel] bounds the number of
    iterations and [indices.length] of them always suffice. *)
Fixpoint fillIndices (fuel : nat) (j : nat) (i : Z) (indices : list Z) : list Z :=
  match fuel with
  | O => indices
  | S fuel' =>
      if j <? length indices then
        fillIndices fuel' (j + 3) (i + 1)%Z
          (<[j + 2 := toUint16 (i + 1)]> (<[j + 1 := toUint16 i]> (<[j := toUint16 0]> indices)))
      else indices
  end.

Definition computeSector (options : Options R) : Completion Geometry :=
  let granularity := granularity options in
  let radius := radius options in
  let rotation := toRadians (rotation options) in
  let sectorAngle := sectorAngle options in
  let numPts := (1 + Zceil (sectorAngle / granularity))%Z in
  let theta := (sectorAngle / IZR (numPts - 1))%R in
  let cosTheta := cos theta in
  let sinTheta := sin theta in
  let x := cos rotation in
  let y := sin rotation in
  positions ← newTypedArray 0%R ((numPts + 1) * 3)%Z;
  let positions := <[2 := 0%R]> (<[1 := 0%R]> (<[0 := 0%R]> positions)) in
  let positions := fillPositions radius cosTheta sinTheta 3 (x, y) positions in
  indices ← newTypedArray 0%Z ((numPts - 1) * 3)%Z;
  let indices := fillIndices (length indices) 0 1%Z indices in
  Return {|
    position := {| componentDatatype := DOUBLE; componentsPerAttribute := 3; values := positions |};
    indices := indices;
    primitiveType := TRIANGLES;
    boundingSphere := {| BoundingSphere.center := fromElements 0%R 0%R 0%R;
                        BoundingSphere.radius := radius |}
  |}.

(** [defaultValue.EMPTY_OBJECT] *)
Definition EMPTY_OBJECT : Options JsValue :=
  {| radius := JsUndefined; sectorAngle := JsUndefined;
     rotation := JsUndefined; granularity := JsUndefined |}.

(** What the constructor leaves in [this]. *)
Record Descriptor : Type := {
  _radius : JsValue;
  _sectorAngle : JsValue;
  _rotation : JsValue;
  _granularity : JsValue;
  _workerName : string
}.

(** [new SectorGeometry(options)]; [None] is a call without an argument. *)
Definition SectorGeometry (options : option (Options JsValue)) : Completion Descriptor :=
  let options := defaultArgument options EMPTY_OBJECT in
  let radius := radius options in
  sectorAngle ← CesiumMath_toRadians (sectorAngle options);
  let granularity := defaultValue (granularity options) (JsNumber (2 / 100)) in
  let rotation := defaultValue (rotation options) (JsNumber 0) in
  (if negb (defined radius) then
     Throw (DeveloperError "radius must be specified!")
   else if negb (String.eqb (typeof radius) "number") then
     Throw (DeveloperError "radius must be a number!")
   else if js_le radius (JsNumber 0) then
     Throw (DeveloperError "radius must be a positive number")
   else Return tt);;
  (if negb (defined sectorAngle) then
     Throw (DeveloperError "sectorAngle must be specified!")
   else if negb (String.eqb (typeof sectorAngle) "number") then
     Throw (DeveloperError "sectorAngle must be a number!")
   else if js_le sectorAngle (JsNumber 0) || js_ge sectorAngle (JsNumber TWO_PI) then
     Throw (DeveloperError "sectorAngle must be a positive number and less than 360")
   else Return tt);;
  (if js_lt rotation (JsNumber 0) || js_gt rotation (JsNumber 360) then
     Throw (DeveloperError "rotation angle must be between 0 and 360 degrees")
   else Return tt);;
  (if js_le granularity (JsNumber 0) then
     Throw (DeveloperError "granularity must be greater than zero.")
   else Return tt);;
  Return {|
    _radius := radius;
    _sectorAngle := sectorAngle;
    _rotation := rotation;
    _granularity := granularity;
    _workerName := "createSectorGeometry"
  |}.

(** [SectorGeometry.createGeometry], for a descriptor whose four fields
    are real numbers (as the constructor leaves them when it is given real
    numbers); on any other descriptor [computeSector] would compute with
    NaN or coerced values, which this embedding does not follow: [None]. *)
Definition createGeometry (sectorGeometry : Descriptor) : option (Completion Geometry) :=
  match _radius sectorGeometry, _sectorAngle sectorGeometry,
        _rotation sectorGeometry, _granularity sectorGeometry with
  | JsNumber radius, JsNumber sectorAngle, JsNumber rotation, JsNumber granularity =>
      let options :=
        {| radius := radius; sectorAngle := sectorAngle;
           rotation := rotation; granularity := granularity |} in
      let geometry := computeSector options in
      Some geometry
  | _, _, _, _ => None
  end.

End Sector.

(** The options object of the [EllipseOutlineGeometry] constructor, as far
    as the ring builder fills it in. *)
Module EllipseOutlineGeometry.
Record Options : Type := {
  center : JsValue;
  semiMajorAxis : JsValue;
  semiMinorAxis : JsValue;
  ellipsoid : JsValue;
  height : JsValue;
  extrudedHeight : JsValue;
  granularity : JsValue;
  numberOfVerticalLines : JsValue
}.
End EllipseOutlineGeometry.

Module Ring.

Record Options : Type := {
  center : JsValue;
  innerRadius : JsValue;
  outerRadius : JsValue;
  ellipsoid : JsValue;
  height : JsValue;
  granularity : JsValue;
  extrudedHeight : JsValue;
  numberOfVerticalLines : JsValue
}.

(** [defaultValue.EMPTY_OBJECT] *)
Definition EMPTY_OBJECT : Options :=
  {| center := JsUndefined; innerRadius := JsUndefined; outerRadius := JsUndefined;
     ellipsoid := JsUndefined; height := JsUndefined; granularity := JsUndefined;
     extrudedHeight := JsUndefined; numberOfVerticalLines := JsUndefined |}.

(** Modelled from the spec: [Cartesian3] is not under src/; the spec has
    the boundaries as sequences of [Point3].  [Cartesian3.fromElements(x, y, z)]
    builds the point of three numbers, taking 0.0 for a missing one
    ([undefined], here [None], which is what a read past the end of a typed
    array gives): the coordinates of a point so built are all defined. *)
Abbreviation Point3 := (Cartesian3 (option R)).

Definition Cartesian3_fromElements (x y z : option R) : Point3 :=
  fromElements (Some (defaultArgument x 0%R)) (Some (defaultArgument y 0%R))
    (Some (defaultArgument z 0%R)).

(** [polygonHierarchy: { positions: ..., holes: [{ positions: ... }] }];
    an array element is [None] where the code pushed [undefined]. *)
Record PolygonHierarchy : Type := {
  hierarchyPositions : list (option Point3);
  hierarchyHoles : list (list (option Point3))
}.

(** The object [createGeometry] returns. *)
Record Result : Type := {
  positions : list (option Point3);
  holes : list (option Point3)
}.

(** [var innerEllipseGeometryOptions = {...}] *)
Definition innerEllipseGeometryOptions (options : Options) (innerRadius : JsValue)
    : EllipseOutlineGeometry.Options :=
  {| EllipseOutlineGeometry.center := center options;
     EllipseOutlineGeometry.semiMajorAxis := innerRadius;
     EllipseOutlineGeometry.semiMinorAxis := innerRadius;
     EllipseOutlineGeometry.ellipsoid := ellipsoid options;
     EllipseOutlineGeometry.height := height options;
     EllipseOutlineGeometry.extrudedHeight := extrudedHeight options;
     EllipseOutlineGeometry.granularity := granularity options;
     EllipseOutlineGeometry.numberOfVerticalLines := numberOfVerticalLines options |}.

(** [var outerEllipseGeometryOptions = {...}] *)
Definition outerEllipseGeometryOptions (options : Options) (outerRadius : JsValue)
    : EllipseOutlineGeometry.Options :=
  {| EllipseOutlineGeometry.center := center options;
     EllipseOutlineGeometry.semiMajorAxis := outerRadius;
     EllipseOutlineGeometry.semiMinorAxis := outerRadius;
     EllipseOutlineGeometry.ellipsoid := ellipsoid options;
     EllipseOutlineGeometry.height := height options;
     EllipseOutlineGeometry.extrudedHeight := extrudedHeight options;
     EllipseOutlineGeometry.granularity := granularity options;
     EllipseOutlineGeometry.numberOfVerticalLines := numberOfVerticalLines options |}.

(** [for(var i = 0; i < numElements; i++) { var j = i*3; ...
    cart3s.push(cart3); }] with [numElements = vals.length / 3], a
    quotient that is not rounded: [i < numElements] is [i * 3 < vals.length].
    [fuel] bounds the iterations; [vals.length] of them always suffice. *)
Fixpoint collectCart3s (fuel : nat) (vals : list R) (i : nat) (cart3s : list Point3)
    : list Point3 :=
  match fuel with
  | O => cart3s
  | S fuel' =>
      if i * 3 <? length vals then
        let j := i * 3 in
        let cart3 := Cartesian3_fromElements (vals !! j) (vals !! (j + 1)) (vals !! (j + 2)) in
        collectCart3s fuel' vals (i + 1) (cart3s ++ [cart3])
      else cart3s
  end.

(** [cart3s[index]]: [undefined] outside the array. *)
Definition readAt (cart3s : list Point3) (index : Z) : option Point3 :=
  if (index <? 0)%Z then None else cart3s !! Z.to_nat index.

(** [for(i = 0; i < indices.length; i++) {
    positions.push(cart3s[indices[i]]); }], from element [i] on. *)
Fixpoint pushPositions (cart3s : list Point3) (indices : list Z)
    (positions : list (option Point3)) : list (option Point3) :=
  match indices with
  | [] => positions
  | index :: rest => pushPositions cart3s rest (positions ++ [readAt cart3s index])
  end.

Section Collaborators.

(** What is not under src/: the ellipse outline generator, the polygon
    builder and the transfer of a geometry between threads. *)
Variable EllipseOutline : Type.
Variable newEllipseOutlineGeometry : EllipseOutlineGeometry.Options -> Completion EllipseOutline.
Variable EllipseOutlineGeometry_createGeometry : EllipseOutline -> Completion Geometry.
Variable Polygon : Type.
Variable newPolygonGeometry : PolygonHierarchy -> Completion Polygon.
Variable Transferable : Type.
Variable transferGeometry : Result -> Transferable -> Completion unit.

(** What the constructor leaves in [this]. *)
Record Descriptor : Type := {
  _innerEllipseGeometry : EllipseOutline;
  _outerEllipseGeometry : EllipseOutline;
  _workerName : string
}.

(** [new RingGeometry(options)]; [None] is a call without an argument. *)
Definition RingGeometry (options : option Options) : Completion Descriptor :=
  let options := defaultArgument options EMPTY_OBJECT in
  let outerRadius := outerRadius options in
  let innerRadius := innerRadius options in
  (if negb (defined outerRadius) then
     Throw (DeveloperError "outerRadius must be specified!")
   else if negb (String.eqb (typeof outerRadius) "number") then
     Throw (DeveloperError "outerRadius must be a number!")
   else if js_le outerRadius (JsNumber 0) then
     Throw (DeveloperError "outerRadius must be a positive number")
   else Return tt);;
  (if negb (defined innerRadius) then
     Throw (DeveloperError "innerRadius must be specified!")
   else if negb (String.eqb (typeof innerRadius) "number") then
     Throw (DeveloperError "innerRadius must be a number!")
   else if js_le innerRadius (JsNumber 0) || js_ge innerRadius outerRadius then
     Throw (DeveloperError "innerRadius must be a positive number and less than outerRadius")
   else Return tt);;
  let innerEllipseGeometryOptions := innerEllipseGeometryOptions options innerRadius in
  let outerEllipseGeometryOptions := outerEllipseGeometryOptions options outerRadius in
  innerEllipseGeometry ← newEllipseOutlineGeometry innerEllipseGeometryOptions;
  outerEllipseGeometry ← newEllipseOutlineGeometry outerEllipseGeometryOptions;
  Return {|
    _innerEllipseGeometry := innerEllipseGeometry;
    _outerEllipseGeometry := outerEllipseGeometry;
    _workerName := "createRingGeometry"
  |}.

(** [RingGeometry.createGeometry(ringGeometry)]; [None] is a call without
    an argument, where reading [ringGeometry._innerEllipseGeometry] is a
    TypeError. *)
Definition createGeometry (ringGeometry : option Descriptor) : Completion Result :=
  ringGeometry ← (match ringGeometry with
                  | Some ringGeometry => Return ringGeometry
                  | None => Throw TypeError
                  end);
  innerGeom ← EllipseOutlineGeometry_createGeometry (_innerEllipseGeometry ringGeometry);
  outerGeom ← EllipseOutlineGeometry_createGeometry (_outerEllipseGeometry ringGeometry);
  let innerVals := values (position innerGeom) in
  let outerVals := values (position outerGeom) in
  let innerIndices := indices innerGeom in
  let outerIndices := indices outerGeom in
  let cart3s := collectCart3s (length innerVals) innerVals 0 [] in
  let outerCart3s := collectCart3s (length outerVals) outerVals 0 [] in
  let innerPositions := pushPositions cart3s innerIndices [] in
  let outerPositions := pushPositions outerCart3s outerIndices [] in
  poly ← newPolygonGeometry
    {| hierarchyPositions := outerPositions; hierarchyHoles := [innerPositions] |};
  Return {| positions := outerPositions; holes := innerPositions |}.

(** The [parameters] of a worker task and what the worker answers. *)
Record Parameters : Type := { index : JsValue }.

Record WorkerResult : Type := {
  geometry : Result;
  resultIndex : JsValue
}.

(** [createRingGeometry(parameters, transferableObjects)] of
    [Workers/createRingGeometry.js]. *)
Definition createRingGeometry (parameters : Parameters) (transferableObjects : Transferable)
    : Completion WorkerResult :=
  geometry ← createGeometry None;
  transferGeometry geometry transferableObjects;;
  Return {| geometry := geometry; resultIndex := index parameters |}.

(** The spec's [computeRing]: construction, then the boundaries. *)
Definition computeRing (options : option Options) : Completion Result :=
  ringGeometry ← RingGeometry options;
  createGeometry (Some ringGeometry).

End Collaborators.

(** The claim's reading of a boundary: element [i] is the position triple
    at index [indices[i]] of the flat position buffer. *)
Definition tripleAt (vals : list R) (index : Z) : option Point3 :=
  if (index <? 0)%Z then None
  else
    let n := Z.to_nat index in
    if n * 3 <? length vals then
      Some (Cartesian3_fromElements (vals !! (n * 3)) (vals !! (n * 3 + 1)) (vals !! (n * 3 + 2)))
    else None.

Definition boundaryOf (vals : list R) (indices : list Z) : list (option Point3) :=
  map (tripleAt vals) indices.

End Ring.

(** ** Closed forms and vocabulary of the statements *)

(** The parameter sets the sector constructor lets through, as
    [computeSector] receives them: the sector angle in radians, the
    rotation in degrees. *)
Definition validSector (options : Sector.Options R) : Prop :=
  (0 < Sector.radius options)%R /\
  (0 < Sector.sectorAngle options < TWO_PI)%R /\
  (0 <= Sector.rotation options <= 360)%R /\
  (0 < Sector.granularity options)%R.

(** What the first loop of [computeSector] appends for [n] samples. *)
Fixpoint arcPoints (radius cosTheta sinTheta : R) (n : nat) (d : R * R) : list R :=
  match n with
  | O => []
  | S n' =>
      [(fst d * radius)%R; (snd d * radius)%R; 0%R]
        ++ arcPoints radius cosTheta sinTheta n' (Sector.rotateStep cosTheta sinTheta d)
  end.

(** What the second loop of [computeSector] appends for [n] triangles. *)
Fixpoint fanIndices (n : nat) (i : Z) : list Z :=
  match n with
  | O => []
  | S n' => [toUint16 0; toUint16 i; toUint16 (i + 1)] ++ fanIndices n' (i + 1)%Z
  end.

(** Point [k] of a flat position buffer, and triangle [k] (counted from 1)
    of a flat index buffer. *)
Definition pointAt (values : list R) (k : nat) : option R * option R * option R :=
  (values !! (3 * k), values !! (3 * k + 1), values !! (3 * k + 2)).

Definition triangleAt (indices : list Z) (k : nat) : option Z * option Z * option Z :=
  (indices !! (3 * (k - 1)), indices !! (3 * (k - 1) + 1), indices !! (3 * (k - 1) + 2)).

(** A sector of one radian sampled every 1/65535 radian: 65536 samples. *)
Definition fineSector : Sector.Options R :=
  {| Sector.radius := 1%R; Sector.sectorAngle := 1%R;
     Sector.rotation := 0%R; Sector.granularity := (/ 65535)%R |}.

(** The example of the spec, with the angle 1/2 for π/4. *)
Definition coarseSector : Sector.Options R :=
  {| Sector.radius := 1000%R; Sector.sectorAngle := (1 / 2)%R;
     Sector.rotation := 0%R; Sector.granularity := (1 / 8)%R |}.

(** The ring of the constructor's documentation, at given radii. *)
Definition sampleRing (innerRadius outerRadius : JsValue) : Ring.Options :=
  {| Ring.center := JsObject 1;
     Ring.innerRadius := innerRadius;
     Ring.outerRadius := outerRadius;
     Ring.ellipsoid := JsUndefined;
     Ring.height := JsUndefined;
     Ring.granularity := JsNumber (2 / 100);
     Ring.extrudedHeight := JsUndefined;
     Ring.numberOfVerticalLines := JsUndefined |}.

(** Stand-ins for the collaborators in examples: an outline generator that
    keeps its options and answers with an outline of two points walked as
    1, 0, 1, and a polygon builder that accepts every hierarchy. *)
Definition keepOptions (options : EllipseOutlineGeometry.Options)
    : Completion EllipseOutlineGeometry.Options :=
  Return options.

Definition sampleOutline : Geometry :=
  {| position := {| componentDatatype := DOUBLE; componentsPerAttribute := 3;
                    values := [1%R; 2%R; 3%R; 4%R; 5%R; 6%R] |};
     indices := [1%Z; 0%Z; 1%Z];
     primitiveType := LINES;
     boundingSphere := {| BoundingSphere.center := fromElements 0%R 0%R 0%R;
                          BoundingSphere.radius := 10%R |} |}.

Definition sampleCreateGeometry (outline : EllipseOutlineGeometry.Options)
    : Completion Geometry :=
  Return sampleOutline.

Definition acceptPolygon (hierarchy : Ring.PolygonHierarchy) : Completion unit :=
  Return tt.

(** [createSectorGeometry(geometry, offset)] of the sector worker: one
    line on the console, then [SectorGeometry.createGeometry(geometry)]; the
    offset is not used.  The result pairs the console output with what
    [createGeometry] gives. *)
Definition createSectorGeometry (geometry : Sector.Descriptor) (offset : JsValue)
    : list string * option (Completion Geometry) :=
  (["sector worker thread"%string], Sector.createGeometry geometry).

(** A sector of angle 0, which [computeSector] samples once. *)
Definition flatSector : Sector.Options R :=
  {| Sector.radius := 2%R; Sector.sectorAngle := 0%R;
     Sector.rotation := 0%R; Sector.granularity := 1%R |}.

(** A sector whose granularity is negative. *)
Definition backwardSector : Sector.Options R :=
  {| Sector.radius := 1%R; Sector.sectorAngle := 1%R;
     Sector.rotation := 0%R; Sector.granularity := (- (1 / 10))%R |}.

(** Collaborators that refuse: an outline constructor, an outline
    generator and a polygon builder that throw. *)
Definition refuseOptions (options : EllipseOutlineGeometry.Options)
    : Completion EllipseOutlineGeometry.Options :=
  Throw (DeveloperError "center is required.").

Definition refuseCreateGeometry (outline : EllipseOutlineGeometry.Options)
    : Completion Geometry :=
  Throw RangeError.

Definition refusePolygon (hierarchy : Ring.PolygonHierarchy) : Completion unit :=
  Throw (DeveloperError "polygonHierarchy is required.").

(** An outline generator for examples whose single point lies at the
    semi-major axis of its options. *)
Definition axisOutline (outline : EllipseOutlineGeometry.Options) : Completion Geometry :=
  match EllipseOutlineGeometry.semiMajorAxis outline with
  | JsNumber a =>
      Return {| position := {| componentDatatype := DOUBLE; componentsPerAttribute := 3;
                               values := [a; 0%R; 0%R] |};
                indices := [0%Z];
                primitiveType := LINES;
                boundingSphere := {| BoundingSphere.center := fromElements 0%R 0%R 0%R;
                                     BoundingSphere.radius := a |} |}
  | _ => Throw TypeError
  end.

(** An outline generator for examples whose second index points past
    its single point. *)
Definition strayOutline : Geometry :=
  {| position := {| componentDatatype := DOUBLE; componentsPerAttribute := 3;
                    values := [1%R; 2%R; 3%R] |};
     indices := [0%Z; 7%Z];
     primitiveType := LINES;
     boundingSphere := {| BoundingSphere.center := fromElements 0%R 0%R 0%R;
                          BoundingSphere.radius := 10%R |} |}.

Definition strayCreateGeometry (outline : EllipseOutlineGeometry.Options)
    : Completion Geometry :=
  Return strayOutline.

(** The descriptor the ring constructor leaves for the ring of its
    documentation when the outline constructor keeps its options. *)
Definition sampleDescriptor : Ring.Descriptor EllipseOutlineGeometry.Options :=
  {| Ring._innerEllipseGeometry :=
       Ring.innerEllipseGeometryOptions
         (sampleRing (JsNumber 30000) (JsNumber 110000)) (JsNumber 30000);
     Ring._outerEllipseGeometry :=
       Ring.outerEllipseGeometryOptions
         (sampleRing (JsNumber 30000) (JsNumber 110000)) (JsNumber 110000);
     Ring._workerName := "createRingGeometry" |}.

(** Boolean tests of the constructors, as propositions. *)
Ltac bool_facts :=
  repeat match goal with
  | H : bool_decide _ = true |- _ => apply bool_decide_eq_true in H
  | H : bool_decide _ = false |- _ => apply bool_decide_eq_false in H
  | H : (_ || _) = false |- _ => apply orb_false_iff in H; destruct H
  | H : (_ || _) = true |- _ => apply orb_true_iff in H; destruct H
  | H : negb _ = false |- _ => apply negb_false_iff in H
  | H : negb _ = true |- _ => apply negb_true_iff in H
  end.

(** ** Lists as arrays *)

Section ArrayLemmas.
Context {A : Type}.
Implicit Types l : list A.

Lemma insert3_split l i a b c :
  i + 3 <= length l ->
  <[i + 2 := c]> (<[i + 1 := b]> (<[i := a]> l)) = take i l ++ [a; b; c] ++ drop (i + 3) l.
Proof.
  revert i. induction l as [|h l IH]; intros i Hlen; simpl in Hlen; [lia|].
  destruct i as [|i].
  - destruct l as [|h1 [|h2 l]]; simpl in *; try lia. reflexivity.
  - simpl. f_equal. apply IH. lia.
Qed.

Lemma take_insert3 l i a b c :
  i + 3 <= length l ->
  take (i + 3) (<[i + 2 := c]> (<[i + 1 := b]> (<[i := a]> l))) = take i l ++ [a; b; c].
Proof.
  intros Hlen. rewrite insert3_split by exact Hlen.
  rewrite app_assoc. rewrite take_app_length'; [reflexivity|].
  rewrite length_app, length_take. simpl. lia.
Qed.

Lemma lookup_triple_head (a b c : A) l k :
  ([a; b; c] ++ l) !! (3 * S k) = l !! (3 * k) /\
  ([a; b; c] ++ l) !! (3 * S k + 1) = l !! (3 * k + 1) /\
  ([a; b; c] ++ l) !! (3 * S k + 2) = l !! (3 * k + 2).
Proof.
  replace (3 * S k) with (S (S (S (3 * k)))) by lia. simpl. auto.
Qed.

End ArrayLemmas.

(** ** The two loops of [computeSector] *)

Lemma fillPositions_closed radius c s n : forall i d (l : list R),
  length l = i + 3 * n ->
  Sector.fillPositions radius c s i d l = take i l ++ arcPoints radius c s n d.
Proof.
  induction n as [|n IH]; intros i d l Hlen.
  - simp fillPositions. destruct (lt_dec i (length l)) as [Hlt|Hge]; [lia|].
    simpl. rewrite app_nil_r, take_ge; [reflexivity | lia].
  - simp fillPositions. destruct (lt_dec i (length l)) as [Hlt|Hge]; [|lia].
    simpl. rewrite (IH (i + 3)) by (rewrite !length_insert; lia).
    rewrite take_insert3 by lia. rewrite <- app_assoc. reflexivity.
Qed.

Lemma fillIndices_closed n : forall fuel j i (l : list Z),
  length l = j + 3 * n -> n <= fuel ->
  Sector.fillIndices fuel j i l = take j l ++ fanIndices n i.
Proof.
  induction n as [|n IH]; intros fuel j i l Hlen Hfuel.
  - assert (Hstop : (j <? length l) = false) by (apply Nat.ltb_ge; lia).
    simpl. rewrite app_nil_r, take_ge by lia.
    destruct fuel; simpl; [reflexivity | now rewrite Hstop].
  - destruct fuel as [|fuel]; [lia|].
    assert (Hgo : (j <? length l) = true) by (apply Nat.ltb_lt; lia).
    simpl. rewrite Hgo.
    rewrite (IH fuel (j + 3)) by (rewrite ?length_insert; lia).
    rewrite take_insert3 by lia. rewrite <- app_assoc. reflexivity.
Qed.

(** The second loop leaves by its own test: fuel beyond the number of
    triangles changes nothing. *)
Lemma fillIndices_fuel n fuel fuel' j i (l : list Z) :
  length l = j + 3 * n -> n <= fuel -> n <= fuel' ->
  Sector.fillIndices fuel j i l = Sector.fillIndices fuel' j i l.
Proof.
  intros Hlen H1 H2.
  rewrite (fillIndices_closed n fuel) by assumption.
  rewrite (fillIndices_closed n fuel') by assumption. reflexivity.
Qed.

Lemma arcPoints_length radius c s n d : length (arcPoints radius c s n d) = 3 * n.
Proof.
  revert d. induction n as [|n IH]; intros d; simpl; [reflexivity|].
  rewrite IH. lia.
Qed.

Lemma fanIndices_length n i : length (fanIndices n i) = 3 * n.
Proof.
  revert i. induction n as [|n IH]; intros i; simpl; [reflexivity|].
  rewrite IH. lia.
Qed.

Lemma arcPoints_lookup radius c s n : forall k d,
  k < n ->
  pointAt (arcPoints radius c s n d) k =
    (Some (fst (Nat.iter k (Sector.rotateStep c s) d) * radius)%R,
     Some (snd (Nat.iter k (Sector.rotateStep c s) d) * radius)%R,
     Some 0%R).
Proof.
  induction n as [|n IH]; intros k d Hk; [lia|].
  destruct k as [|k].
  - reflexivity.
  - unfold pointAt. cbn [arcPoints].
    destruct (lookup_triple_head (fst d * radius)%R (snd d * radius)%R 0%R
                (arcPoints radius c s n (Sector.rotateStep c s d)) k) as (E0 & E1 & E2).
    rewrite E0, E1, E2.
    specialize (IH k (Sector.rotateStep c s d) ltac:(lia)).
    unfold pointAt in IH. rewrite IH.
    rewrite <- !Nat.iter_succ_r. reflexivity.
Qed.

Lemma fanIndices_lookup n : forall k i,
  k < n ->
  fanIndices n i !! (3 * k) = Some (toUint16 0) /\
  fanIndices n i !! (3 * k + 1) = Some (toUint16 (i + Z.of_nat k)) /\
  fanIndices n i !! (3 * k + 2) = Some (toUint16 (i + Z.of_nat k + 1)).
Proof.
  induction n as [|n IH]; intros k i Hk; [lia|].
  destruct k as [|k].
  - cbn. rewrite Z.add_0_r. auto.
  - cbn [fanIndices].
    destruct (lookup_triple_head (toUint16 0) (toUint16 i) (toUint16 (i + 1))
                (fanIndices n (i + 1)%Z) k) as (E0 & E1 & E2).
    rewrite E0, E1, E2.
    destruct (IH k (i + 1)%Z ltac:(lia)) as (I0 & I1 & I2).
    rewrite I0, I1, I2.
    replace (i + 1 + Z.of_nat k)%Z with (i + Z.of_nat (S k))%Z by lia. auto.
Qed.

Lemma toUint16_small v : (0 <= v < 2 ^ 16)%Z -> toUint16 v = v.
Proof. intros Hv. unfold toUint16. apply Z.mod_small. exact Hv. Qed.

Lemma toUint16_bound v : (0 <= v)%Z -> (0 <= toUint16 v <= v)%Z /\ (toUint16 v < 2 ^ 16)%Z.
Proof.
  intros Hv. unfold toUint16.
  pose proof (Z.mod_pos_bound v (2 ^ 16) ltac:(lia)).
  pose proof (Z.mod_le v (2 ^ 16) Hv ltac:(lia)). lia.
Qed.

Lemma fanIndices_bound n : forall i v,
  (0 <= i)%Z -> v ∈ fanIndices n i -> (0 <= v <= i + Z.of_nat n)%Z.
Proof.
  induction n as [|n IH]; intros i v Hi Hin; cbn [fanIndices app] in Hin.
  - inversion Hin.
  - rewrite !elem_of_cons in Hin.
    destruct Hin as [-> | [-> | [-> | Hin]]].
    + pose proof (toUint16_bound 0 ltac:(lia)). lia.
    + pose proof (toUint16_bound i Hi). lia.
    + pose proof (toUint16_bound (i + 1) ltac:(lia)). lia.
    + specialize (IH (i + 1)%Z v ltac:(lia) Hin). lia.
Qed.

(** ** The sample count and the step angle *)

Lemma Zceil_pos (v : R) : (0 < v)%R -> (1 <= Zceil v)%Z.
Proof.
  intros Hv. destruct (Zceil_bound v) as [_ Hup].
  assert (H : (0 < Zceil v)%Z) by (apply lt_IZR; lra). lia.
Qed.

Lemma numPts_ge_2 options : validSector options -> (2 <= Sector.numPts options)%Z.
Proof.
  intros (_ & [Hsa _] & _ & Hg). unfold Sector.numPts.
  assert (0 < Sector.sectorAngle options / Sector.granularity options)%R
    by (apply Rdiv_lt_0_compat; assumption).
  pose proof (Zceil_pos _ H). lia.
Qed.

Lemma fineSector_valid : validSector fineSector.
Proof.
  unfold validSector, fineSector, TWO_PI; simpl.
  pose proof PI2_1. repeat split; lra.
Qed.

Lemma coarseSector_valid : validSector coarseSector.
Proof.
  unfold validSector, coarseSector, TWO_PI; simpl.
  pose proof PI2_1. repeat split; lra.
Qed.

Lemma fineSector_numPts : Sector.numPts fineSector = 65536%Z.
Proof.
  unfold Sector.numPts, fineSector; simpl.
  rewrite (Zceil_eq 65535); [reflexivity|].
  replace (1 / / 65535)%R with 65535%R by (field; lra). lra.
Qed.

Lemma coarseSector_numPts : Sector.numPts coarseSector = 5%Z.
Proof.
  unfold Sector.numPts, coarseSector; simpl.
  rewrite (Zceil_eq 4); [reflexivity|].
  replace (1 / 2 / (1 / 8))%R with 4%R by (field; lra). lra.
Qed.

Lemma iter_rotateStep t k : forall a,
  Nat.iter k (Sector.rotateStep (cos t) (sin t)) (cos a, sin a) =
    (cos (a + INR k * t), sin (a + INR k * t)).
Proof.
  induction k as [|k IH]; intros a.
  - simpl. rewrite Rmult_0_l, Rplus_0_r. reflexivity.
  - rewrite Nat.iter_succ, IH. unfold Sector.rotateStep; cbn [fst snd].
    rewrite S_INR.
    replace (a + (INR k + 1) * t)%R with ((a + INR k * t) + t)%R by ring.
    rewrite (cos_plus (a + INR k * t) t), (sin_plus (a + INR k * t) t). f_equal; ring.
Qed.

Lemma steps_span options :
  validSector options ->
  (INR (Z.to_nat (Sector.numPts options - 1)) * Sector.theta options)%R =
    Sector.sectorAngle options.
Proof.
  intros Hvalid. pose proof (numPts_ge_2 options Hvalid) as Hn.
  unfold Sector.theta. rewrite INR_IZR_INZ, Z2Nat.id by lia.
  field. apply not_0_IZR. lia.
Qed.

(** ** [computeSector] in closed form *)

Lemma computeSector_closed options :
  (1 <= Sector.numPts options)%Z ->
  Sector.computeSector options =
    Return {|
      position := {|
        componentDatatype := DOUBLE;
        componentsPerAttribute := 3;
        values := [0%R; 0%R; 0%R] ++
          arcPoints (Sector.radius options)
            (cos (Sector.theta options)) (sin (Sector.theta options))
            (Z.to_nat (Sector.numPts options))
            (cos (toRadians (Sector.rotation options)),
             sin (toRadians (Sector.rotation options))) |};
      indices := fanIndices (Z.to_nat (Sector.numPts options - 1)) 1;
      primitiveType := TRIANGLES;
      boundingSphere := {| BoundingSphere.center := fromElements 0%R 0%R 0%R;
                           BoundingSphere.radius := Sector.radius options |}
    |}.
Proof.
  intros Hn. unfold Sector.computeSector, Sector.theta.
  fold (Sector.numPts options).
  set (n := Sector.numPts options) in *.
  unfold newTypedArray.
  destruct (Z.ltb_spec ((n + 1) * 3) 0) as [Hneg|_]; [lia|].
  destruct (Z.ltb_spec ((n - 1) * 3) 0) as [Hneg|_]; [lia|].
  cbn [mbind Completion_bind].
  replace (Z.to_nat ((n + 1) * 3)) with (3 + 3 * Z.to_nat n) by lia.
  replace (Z.to_nat ((n - 1) * 3)) with (0 + 3 * Z.to_nat (n - 1)) by lia.
  rewrite (fillPositions_closed _ _ _ (Z.to_nat n))
    by (rewrite !length_insert, repeat_length; lia).
  rewrite (fillIndices_closed (Z.to_nat (n - 1)))
    by (rewrite ?repeat_length; lia).
  reflexivity.
Qed.

Lemma fanIndices_triangle n k :
  1 <= k <= n ->
  triangleAt (fanIndices n 1) k =
    (Some 0%Z, Some (toUint16 (Z.of_nat k)), Some (toUint16 (Z.of_nat k + 1))).
Proof.
  intros Hk. unfold triangleAt.
  destruct (fanIndices_lookup n (k - 1) 1%Z ltac:(lia)) as (E0 & E1 & E2).
  rewrite E0, E1, E2.
  replace (1 + Z.of_nat (k - 1))%Z with (Z.of_nat k) by lia. reflexivity.
Qed.

(** ** The sector mesh *)

(** The two buffers of a valid sector: 3·(numPts+1) positions that start
    with the origin, 3·(numPts-1) indices, each below numPts+1; the second
    loop stores triangle k through a [Uint16Array], and what it stores is
    the (0, k, k+1) of its comment as long as numPts <= 65535. *)
Lemma computeSector_buffers options :
  validSector options ->
  exists g,
    Sector.computeSector options = Return g /\
    Z.of_nat (length (values (position g))) = (3 * (Sector.numPts options + 1))%Z /\
    pointAt (values (position g)) 0 = (Some 0%R, Some 0%R, Some 0%R) /\
    Z.of_nat (length (indices g)) = (3 * (Sector.numPts options - 1))%Z /\
    (forall v, v ∈ indices g -> (0 <= v < Sector.numPts options + 1)%Z) /\
    (forall k : nat,
       (1 <= Z.of_nat k <= Sector.numPts options - 1)%Z ->
       triangleAt (indices g) k =
         (Some 0%Z, Some (Z.of_nat k mod 2 ^ 16)%Z, Some ((Z.of_nat k + 1) mod 2 ^ 16)%Z)) /\
    ((Sector.numPts options <= 65535)%Z ->
     forall k : nat,
       (1 <= Z.of_nat k <= Sector.numPts options - 1)%Z ->
       triangleAt (indices g) k = (Some 0%Z, Some (Z.of_nat k), Some (Z.of_nat k + 1)%Z)).
Proof.
  intros Hvalid. pose proof (numPts_ge_2 options Hvalid) as Hn.
  eexists. split; [apply computeSector_closed; lia|].
  cbn [position values indices].
  repeat split.
  - rewrite length_app, arcPoints_length. simpl. lia.
  - rewrite fanIndices_length. lia.
  - apply (fanIndices_bound _ 1 v ltac:(lia)) in H. lia.
  - apply (fanIndices_bound _ 1 v ltac:(lia)) in H. lia.
  - intros k Hk. apply fanIndices_triangle. lia.
  - intros Hsmall k Hk. rewrite fanIndices_triangle by lia.
    rewrite !toUint16_small by lia. reflexivity.
Qed.

(** C1: the claim's triangle k = (0, k, k+1) is what the comment of the
    second loop announces ("(center, pn-1, pn)"), and the code does not keep
    to it: for the valid parameters sectorAngle 1, granularity 1/65535 there
    are 65536 samples, the two buffers have the sizes of the claim, and
    triangle 65535 is stored as (0, 65535, 0) instead of (0, 65535, 65536),
    the [Uint16Array] having cut the index 65536 down to 0. *)
Theorem computeSector_index_wrap :
  validSector fineSector /\
  Sector.numPts fineSector = 65536%Z /\
  exists g,
    Sector.computeSector fineSector = Return g /\
    Z.of_nat (length (values (position g))) = (3 * (65536 + 1))%Z /\
    Z.of_nat (length (indices g)) = (3 * (65536 - 1))%Z /\
    triangleAt (indices g) (Z.to_nat 65535) = (Some 0%Z, Some 65535%Z, Some 0%Z) /\
    triangleAt (indices g) (Z.to_nat 65535) <> (Some 0%Z, Some 65535%Z, Some (65535 + 1)%Z).
Proof.
  split; [exact fineSector_valid|].
  split; [exact fineSector_numPts|].
  eexists. split; [apply computeSector_closed; rewrite fineSector_numPts; lia|].
  cbn [position values indices]. rewrite fineSector_numPts.
  rewrite length_app, arcPoints_length, fanIndices_length.
  rewrite fanIndices_triangle by lia.
  rewrite Z2Nat.id by lia.
  split; [simpl length; lia|]. split; [lia|].
  split; [reflexivity | discriminate].
Qed.

(** The positions of a mesh in closed form, point by point. *)
Lemma sector_point radius c s n d (k : nat) :
  (1 <= k <= n)%nat ->
  pointAt ([0%R; 0%R; 0%R] ++ arcPoints radius c s n d) k =
    (Some (fst (Nat.iter (k - 1) (Sector.rotateStep c s) d) * radius)%R,
     Some (snd (Nat.iter (k - 1) (Sector.rotateStep c s) d) * radius)%R,
     Some 0%R).
Proof.
  intros Hk. destruct k as [|k]; [lia|].
  unfold pointAt.
  destruct (lookup_triple_head 0%R 0%R 0%R (arcPoints radius c s n d) k) as (E0 & E1 & E2).
  rewrite E0, E1, E2.
  pose proof (arcPoints_lookup radius c s n k d ltac:(lia)) as Hk'.
  unfold pointAt in Hk'. rewrite Hk'.
  replace (S k - 1) with k by lia. reflexivity.
Qed.

(** C2: for every valid sector parameter set numPts is at least 2, the
    first sampled direction is (cos rotation, sin rotation), the direction
    after numPts-1 incremental rotations by theta is
    (cos (rotation + sectorAngle), sin (rotation + sectorAngle)), and the
    first and the last emitted arc points are these two directions scaled
    by the radius; every arc point k is the direction after k-1 rotations,
    scaled.  Over the reals the equalities are exact. *)
Theorem computeSector_arc_endpoints options :
  validSector options ->
  let n := Z.to_nat (Sector.numPts options) in
  let rot := toRadians (Sector.rotation options) in
  let step := Sector.rotateStep (cos (Sector.theta options)) (sin (Sector.theta options)) in
  let direction := fun k => Nat.iter k step (cos rot, sin rot) in
  (2 <= Sector.numPts options)%Z /\
  direction 0 = (cos rot, sin rot) /\
  direction (n - 1) =
    (cos (rot + Sector.sectorAngle options), sin (rot + Sector.sectorAngle options)) /\
  exists g,
    Sector.computeSector options = Return g /\
    (forall k : nat, (1 <= k <= n)%nat ->
       pointAt (values (position g)) k =
         (Some (fst (direction (k - 1)%nat) * Sector.radius options)%R,
          Some (snd (direction (k - 1)%nat) * Sector.radius options)%R,
          Some 0%R)) /\
    pointAt (values (position g)) 1 =
      (Some (cos rot * Sector.radius options)%R,
       Some (sin rot * Sector.radius options)%R, Some 0%R) /\
    pointAt (values (position g)) n =
      (Some (cos (rot + Sector.sectorAngle options) * Sector.radius options)%R,
       Some (sin (rot + Sector.sectorAngle options) * Sector.radius options)%R, Some 0%R).
Proof.
  intros Hvalid n rot step direction.
  pose proof (numPts_ge_2 options Hvalid) as Hn.
  assert (Hlast : direction (n - 1) =
            (cos (rot + Sector.sectorAngle options), sin (rot + Sector.sectorAngle options))).
  { unfold direction, step. rewrite iter_rotateStep.
    replace (n - 1) with (Z.to_nat (Sector.numPts options - 1)) by (unfold n; lia).
    rewrite steps_span by exact Hvalid. reflexivity. }
  split; [exact Hn|]. split; [reflexivity|]. split; [exact Hlast|].
  eexists. split; [apply computeSector_closed; lia|].
  cbn [position values]. fold n rot.
  split; [intros k Hk; apply sector_point; exact Hk|]. split.
  - rewrite sector_point by (unfold n; lia). reflexivity.
  - rewrite sector_point by (unfold n; lia). fold step. fold (direction (n - 1)).
    rewrite Hlast. reflexivity.
Qed.

Lemma computeSector_arc_endpoints_witness :
  validSector coarseSector /\
  (2 <= Sector.numPts coarseSector)%Z /\
  exists g,
    Sector.computeSector coarseSector = Return g /\
    pointAt (values (position g)) 5 =
      (Some (cos (toRadians 0 + 1 / 2) * 1000)%R,
       Some (sin (toRadians 0 + 1 / 2) * 1000)%R, Some 0%R).
Proof.
  split; [exact coarseSector_valid|].
  destruct (computeSector_arc_endpoints coarseSector coarseSector_valid)
    as (Hn & _ & _ & g & Hg & _ & _ & Hlast).
  split; [exact Hn|]. exists g. split; [exact Hg|].
  rewrite coarseSector_numPts in Hlast. exact Hlast.
Defined.

Lemma unit_direction t k a :
  let d := Nat.iter k (Sector.rotateStep (cos t) (sin t)) (cos a, sin a) in
  (fst d * fst d + snd d * snd d)%R = 1%R.
Proof.
  intros d. unfold d. rewrite iter_rotateStep. cbn [fst snd].
  pose proof (sin2_cos2 (a + INR k * t)) as H. unfold Rsqr in H. lra.
Qed.

(** C3: for every valid sector parameter set each of the numPts
    non-origin positions of the mesh lies at distance exactly radius from
    the local origin, and the bounding sphere is centered at (0,0,0) with
    the input radius. *)
Theorem computeSector_on_circle options :
  validSector options ->
  exists g,
    Sector.computeSector options = Return g /\
    Z.of_nat (length (values (position g))) = (3 * (Sector.numPts options + 1))%Z /\
    (forall k : nat,
       (1 <= Z.of_nat k <= Sector.numPts options)%Z ->
       exists px py pz,
         pointAt (values (position g)) k = (Some px, Some py, Some pz) /\
         sqrt (px * px + py * py + pz * pz) = Sector.radius options) /\
    boundingSphere g =
      {| BoundingSphere.center := fromElements 0%R 0%R 0%R;
         BoundingSphere.radius := Sector.radius options |}.
Proof.
  intros Hvalid. pose proof (numPts_ge_2 options Hvalid) as Hn.
  eexists. split; [apply computeSector_closed; lia|].
  cbn [position values boundingSphere].
  split; [rewrite length_app, arcPoints_length; simpl; lia|].
  split; [|reflexivity].
  intros k Hk. rewrite sector_point by lia.
  do 3 eexists. split; [reflexivity|].
  pose proof (unit_direction (Sector.theta options) (k - 1)
                (toRadians (Sector.rotation options))) as Hunit.
  cbv zeta in Hunit.
  set (d := Nat.iter (k - 1) _ _) in *.
  destruct Hvalid as (Hr & _).
  replace (fst d * Sector.radius options * (fst d * Sector.radius options) +
           snd d * Sector.radius options * (snd d * Sector.radius options) + 0 * 0)%R
    with ((fst d * fst d + snd d * snd d) *
          (Sector.radius options * Sector.radius options))%R by ring.
  rewrite Hunit, Rmult_1_l. apply sqrt_square. lra.
Qed.

Lemma computeSector_on_circle_witness :
  validSector coarseSector /\
  exists g,
    Sector.computeSector coarseSector = Return g /\
    (exists px py pz,
       pointAt (values (position g)) 5 = (Some px, Some py, Some pz) /\
       sqrt (px * px + py * py + pz * pz) = 1000%R) /\
    BoundingSphere.radius (boundingSphere g) = 1000%R.
Proof.
  split; [exact coarseSector_valid|].
  destruct (computeSector_on_circle coarseSector coarseSector_valid)
    as (g & Hg & _ & Hpts & Hsphere).
  exists g. split; [exact Hg|]. split.
  - apply (Hpts 5). rewrite coarseSector_numPts. lia.
  - rewrite Hsphere. reflexivity.
Defined.

Lemma toUint16_range v : (0 <= toUint16 v < 2 ^ 16)%Z.
Proof. unfold toUint16. apply Z.mod_pos_bound. lia. Qed.

Lemma fanIndices_uint16 n : forall i v, v ∈ fanIndices n i -> (0 <= v < 2 ^ 16)%Z.
Proof.
  induction n as [|n IH]; intros i v Hin; cbn [fanIndices app] in Hin.
  - inversion Hin.
  - rewrite !elem_of_cons in Hin.
    destruct Hin as [-> | [-> | [-> | Hin]]]; try apply toUint16_range.
    exact (IH _ _ Hin).
Qed.

(** C8, as the code has it: the index buffer is a [Uint16Array], so
    triangle k holds (0, k, k+1) reduced modulo 2^16.  Every stored index is
    below 2^16 and below numPts+1 for every valid parameter set; the stored
    triangles are the intended (0, k, k+1) exactly when numPts <= 65535;
    beyond that, triangle 65535 is stored as (0, 65535, 0): its last vertex
    aliases the origin instead of position 65536. *)
Theorem computeSector_uint16_indices options :
  validSector options ->
  exists g,
    Sector.computeSector options = Return g /\
    (forall k : nat,
       (1 <= Z.of_nat k <= Sector.numPts options - 1)%Z ->
       triangleAt (indices g) k =
         (Some (toUint16 0), Some (toUint16 (Z.of_nat k)), Some (toUint16 (Z.of_nat k + 1)))) /\
    (forall v, v ∈ indices g -> (0 <= v < 2 ^ 16)%Z /\ (v < Sector.numPts options + 1)%Z) /\
    ((Sector.numPts options <= 65535)%Z <->
     (forall k : nat,
        (1 <= Z.of_nat k <= Sector.numPts options - 1)%Z ->
        triangleAt (indices g) k = (Some 0%Z, Some (Z.of_nat k), Some (Z.of_nat k + 1)%Z))) /\
    ((65535 < Sector.numPts options)%Z ->
     triangleAt (indices g) (Z.to_nat 65535) = (Some 0%Z, Some 65535%Z, Some 0%Z)).
Proof.
  intros Hvalid. pose proof (numPts_ge_2 options Hvalid) as Hn.
  eexists. split; [apply computeSector_closed; lia|].
  cbn [indices].
  assert (Hbig : (65535 < Sector.numPts options)%Z ->
            triangleAt (fanIndices (Z.to_nat (Sector.numPts options - 1)) 1) (Z.to_nat 65535) =
              (Some 0%Z, Some 65535%Z, Some 0%Z)).
  { intros Hlarge. rewrite fanIndices_triangle by lia.
    rewrite Z2Nat.id by lia. reflexivity. }
  split; [|split; [|split]].
  - intros k Hk. rewrite fanIndices_triangle by lia. reflexivity.
  - intros v Hv. split; [exact (fanIndices_uint16 _ _ _ Hv)|].
    apply (fanIndices_bound _ 1 v ltac:(lia)) in Hv. lia.
  - split.
    + intros Hsmall k Hk. rewrite fanIndices_triangle by lia.
      rewrite !toUint16_small by lia. reflexivity.
    + intros Hall.
      destruct (Z.le_gt_cases (Sector.numPts options) 65535) as [Hle|Hgt]; [exact Hle|].
      specialize (Hall (Z.to_nat 65535) ltac:(lia)).
      rewrite Hbig in Hall by lia.
      rewrite Z2Nat.id in Hall by lia. discriminate Hall.
  - exact Hbig.
Qed.

Lemma computeSector_uint16_indices_witness :
  validSector fineSector /\
  exists g,
    Sector.computeSector fineSector = Return g /\
    triangleAt (indices g) (Z.to_nat 65535) = (Some 0%Z, Some 65535%Z, Some 0%Z).
Proof.
  split; [exact fineSector_valid|].
  destruct (computeSector_uint16_indices fineSector fineSector_valid)
    as (g & Hg & _ & _ & _ & Halias).
  exists g. split; [exact Hg|].
  apply Halias. rewrite fineSector_numPts. lia.
Defined.

(** C8 as stated fails: with 65536 samples the precondition
    numPts <= 65535 does not hold, and still every stored index is below
    numPts+1. *)
Lemma computeSector_uint16_indices_counterexample :
  validSector fineSector /\
  ~ (Sector.numPts fineSector <= 65535)%Z /\
  exists g,
    Sector.computeSector fineSector = Return g /\
    forall v, v ∈ indices g -> (v < Sector.numPts fineSector + 1)%Z.
Proof.
  split; [exact fineSector_valid|].
  split; [rewrite fineSector_numPts; lia|].
  eexists. split; [apply computeSector_closed; rewrite fineSector_numPts; lia|].
  cbn [indices]. intros v Hv.
  apply (fanIndices_bound _ 1 v ltac:(lia)) in Hv.
  rewrite fineSector_numPts in *. lia.
Qed.

(** ** Comparisons of field values *)

Lemma js_le_number a b : js_le (JsNumber a) (JsNumber b) = bool_decide (a <= b)%R.
Proof. reflexivity. Qed.

Lemma js_lt_number a b : js_lt (JsNumber a) (JsNumber b) = bool_decide (a < b)%R.
Proof. reflexivity. Qed.

Lemma js_ge_number a b : js_ge (JsNumber a) (JsNumber b) = bool_decide (b <= a)%R.
Proof. reflexivity. Qed.

Lemma js_gt_number a b : js_gt (JsNumber a) (JsNumber b) = bool_decide (b < a)%R.
Proof. reflexivity. Qed.

Lemma js_toRadians_number d : js_toRadians (JsNumber d) = JsNumber (toRadians d).
Proof. reflexivity. Qed.

Lemma toRadians_bounds d :
  (0 < toRadians d < TWO_PI)%R <-> (0 < d < 360)%R.
Proof.
  unfold toRadians, RADIANS_PER_DEGREE, TWO_PI. pose proof PI_RGT_0 as Hpi.
  replace (d * (PI / 180))%R with (d / 180 * PI)%R by (field; lra).
  split; intros [H1 H2]; split.
  - assert (0 < d / 180)%R; [|lra].
    apply (Rmult_lt_reg_r PI); [exact Hpi|]. lra.
  - assert (d / 180 < 2)%R; [|lra].
    apply (Rmult_lt_reg_r PI); [exact Hpi|]. lra.
  - apply Rmult_lt_0_compat; lra.
  - apply Rmult_lt_compat_r; lra.
Qed.

(** ** The sector constructor *)

Lemma js_toRadians_is_number (v : JsValue) :
  defined (js_toRadians v) = true /\ typeof (js_toRadians v) = "number"%string.
Proof.
  unfold js_toRadians, js_mul. destruct (ToNumber v); split; reflexivity.
Qed.

Lemma toRadians_sign d :
  ((d <= 0)%R -> (toRadians d <= 0)%R) /\ ((360 <= d)%R -> (TWO_PI <= toRadians d)%R).
Proof.
  unfold toRadians, RADIANS_PER_DEGREE, TWO_PI. pose proof PI_RGT_0 as Hpi.
  assert (Hk : (0 < PI / 180)%R) by lra.
  split; intros Hd.
  - replace 0%R with (0 * (PI / 180))%R by ring. apply Rmult_le_compat_r; lra.
  - replace (2 * PI)%R with (360 * (PI / 180))%R by field.
    apply Rmult_le_compat_r; lra.
Qed.

Lemma bool_decide_false_of (P : Prop) `{Decision P} : ~ P -> bool_decide P = false.
Proof. apply bool_decide_eq_false. Qed.

(** The constructor either throws a DeveloperError or returns the
    descriptor of its four values, the sector angle being there and every
    test having passed. *)
Lemma SectorGeometry_cases (options : option (Sector.Options JsValue)) :
  let o := defaultArgument options Sector.EMPTY_OBJECT in
  let radius := Sector.radius o in
  let sectorAngle := js_toRadians (Sector.sectorAngle o) in
  let granularity := defaultValue (Sector.granularity o) (JsNumber (2 / 100)) in
  let rotation := defaultValue (Sector.rotation o) (JsNumber 0) in
  isDeveloperError (Sector.SectorGeometry options) \/
  (Sector.SectorGeometry options =
     Return {| Sector._radius := radius; Sector._sectorAngle := sectorAngle;
               Sector._rotation := rotation; Sector._granularity := granularity;
               Sector._workerName := "createSectorGeometry" |} /\
   defined radius = true /\ typeof radius = "number"%string /\
   js_le radius (JsNumber 0) = false /\
   js_le sectorAngle (JsNumber 0) = false /\ js_ge sectorAngle (JsNumber TWO_PI) = false /\
   js_lt rotation (JsNumber 0) = false /\ js_gt rotation (JsNumber 360) = false /\
   js_le granularity (JsNumber 0) = false /\
   defined (Sector.sectorAngle o) = true).
Proof.
  intros o radius sectorAngle granularity rotation.
  unfold Sector.SectorGeometry, CesiumMath_toRadians. fold o.
  destruct (defined (Sector.sectorAngle o)) eqn:E0; [|left; eexists; reflexivity].
  cbn [mbind Completion_bind]. fold radius sectorAngle granularity rotation.
  destruct (negb (defined radius)) eqn:E1; [left; eexists; reflexivity|].
  destruct (negb (String.eqb (typeof radius) "number")) eqn:E2; [left; eexists; reflexivity|].
  destruct (js_le radius (JsNumber 0)) eqn:E3; [left; eexists; reflexivity|].
  cbn [mbind Completion_bind].
  destruct (negb (defined sectorAngle)) eqn:E4; [left; eexists; reflexivity|].
  destruct (negb (String.eqb (typeof sectorAngle) "number")) eqn:E5; [left; eexists; reflexivity|].
  destruct (js_le sectorAngle (JsNumber 0) || js_ge sectorAngle (JsNumber TWO_PI)) eqn:E6;
    [left; eexists; reflexivity|].
  cbn [mbind Completion_bind].
  destruct (js_lt rotation (JsNumber 0) || js_gt rotation (JsNumber 360)) eqn:E7;
    [left; eexists; reflexivity|].
  cbn [mbind Completion_bind].
  destruct (js_le granularity (JsNumber 0)) eqn:E8; [left; eexists; reflexivity|].
  cbn [mbind Completion_bind].
  right. bool_facts. apply String.eqb_eq in E2. auto 12.
Qed.

(** When the sector angle is there and no test fires the constructor
    returns its descriptor. *)
Lemma SectorGeometry_passes (options : Sector.Options JsValue) :
  let radius := Sector.radius options in
  let sectorAngle := js_toRadians (Sector.sectorAngle options) in
  let granularity := defaultValue (Sector.granularity options) (JsNumber (2 / 100)) in
  let rotation := defaultValue (Sector.rotation options) (JsNumber 0) in
  defined (Sector.sectorAngle options) = true ->
  defined radius = true -> typeof radius = "number"%string ->
  js_le radius (JsNumber 0) = false ->
  js_le sectorAngle (JsNumber 0) = false -> js_ge sectorAngle (JsNumber TWO_PI) = false ->
  js_lt rotation (JsNumber 0) = false -> js_gt rotation (JsNumber 360) = false ->
  js_le granularity (JsNumber 0) = false ->
  Sector.SectorGeometry (Some options) =
    Return {| Sector._radius := radius; Sector._sectorAngle := sectorAngle;
              Sector._rotation := rotation; Sector._granularity := granularity;
              Sector._workerName := "createSectorGeometry" |}.
Proof.
  intros radius sectorAngle granularity rotation H0 H1 H2 H3 H6 H7 H8 H9 H10.
  unfold Sector.SectorGeometry, CesiumMath_toRadians. cbn [defaultArgument].
  rewrite H0. cbn [mbind Completion_bind].
  fold radius sectorAngle granularity rotation.
  destruct (js_toRadians_is_number (Sector.sectorAngle options)) as [H4 H5].
  fold sectorAngle in H4, H5.
  rewrite H1, H2, H3, H4, H5, H6, H7, H8, H9, H10. reflexivity.
Qed.

(** The constructor and [createGeometry] together: real numbers that
    pass the constructor reach [computeSector] as a valid parameter set,
    the sector angle in radians. *)
Lemma SectorGeometry_createGeometry (r d rot g : R) :
  (0 < r)%R -> (0 < d < 360)%R -> (0 <= rot <= 360)%R -> (0 < g)%R ->
  let options :=
    {| Sector.radius := r; Sector.sectorAngle := toRadians d;
       Sector.rotation := rot; Sector.granularity := g |} in
  exists descriptor,
    Sector.SectorGeometry
      (Some {| Sector.radius := JsNumber r; Sector.sectorAngle := JsNumber d;
               Sector.rotation := JsNumber rot; Sector.granularity := JsNumber g |}) =
      Return descriptor /\
    Sector.createGeometry descriptor = Some (Sector.computeSector options) /\
    validSector options.
Proof.
  intros Hr Hd Hrot Hg options. apply toRadians_bounds in Hd.
  eexists. split; [|split].
  - apply SectorGeometry_passes; cbn [Sector.radius Sector.sectorAngle Sector.rotation
      Sector.granularity defaultValue defined]; try reflexivity;
      rewrite ?js_toRadians_number, ?js_le_number, ?js_ge_number, ?js_lt_number,
        ?js_gt_number; apply bool_decide_false_of; lra.
  - reflexivity.
  - unfold validSector, options; cbn [Sector.radius Sector.sectorAngle Sector.rotation
      Sector.granularity]. repeat split; lra.
Qed.

(** C4, as the code has it: the constructor takes the sector angle in
    degrees and tests it after converting it to radians.  It throws a
    DeveloperError, and so leaves no descriptor from which a geometry
    could be made, whenever the radius is a number <= 0, the sector angle is
    a number of degrees outside the open interval (0, 360), that is, of
    radians outside (0, 2π), the rotation is a number outside [0, 360], or
    the granularity is a number <= 0; the other fields may hold anything. *)
Theorem SectorGeometry_rejects (options : Sector.Options JsValue) :
  (exists r, Sector.radius options = JsNumber r /\ (r <= 0)%R) \/
  (exists d, Sector.sectorAngle options = JsNumber d /\
             ((d <= 0)%R \/ (360 <= d)%R \/
              (toRadians d <= 0)%R \/ (TWO_PI <= toRadians d)%R)) \/
  (exists rot, Sector.rotation options = JsNumber rot /\ ((rot < 0)%R \/ (360 < rot)%R)) \/
  (exists g, Sector.granularity options = JsNumber g /\ (g <= 0)%R) ->
  isDeveloperError (Sector.SectorGeometry (Some options)) /\
  forall descriptor, Sector.SectorGeometry (Some options) <> Return descriptor.
Proof.
  intros Hbad.
  assert (Herr : isDeveloperError (Sector.SectorGeometry (Some options))).
  { destruct (SectorGeometry_cases (Some options))
      as [Herr | (_ & _ & _ & Hr & Hs0 & Hs2 & Hrot0 & Hrot1 & Hg & _)]; [exact Herr|].
    exfalso. cbn [defaultArgument] in *.
    destruct Hbad as [(r & Er & Hbad) | [(d & Ed & Hbad) | [(rot & Erot & Hbad) | (g & Eg & Hbad)]]].
    - rewrite Er, js_le_number in Hr. bool_facts. lra.
    - rewrite Ed, js_toRadians_number in Hs0, Hs2.
      rewrite js_le_number in Hs0. rewrite js_ge_number in Hs2. bool_facts.
      destruct (toRadians_sign d) as [Hneg Hbig].
      destruct Hbad as [Hd | [Hd | [Hd | Hd]]]; [apply Hneg in Hd | apply Hbig in Hd | |]; lra.
    - rewrite Erot in Hrot0, Hrot1. cbn [defaultValue defined] in Hrot0, Hrot1.
      rewrite js_lt_number in Hrot0. rewrite js_gt_number in Hrot1. bool_facts. lra.
    - rewrite Eg in Hg. cbn [defaultValue defined] in Hg.
      rewrite js_le_number in Hg. bool_facts. lra. }
  split; [exact Herr|].
  intros descriptor Hd. destruct Herr as [message Hm]. congruence.
Qed.

(** The inputs the spec lists, the sector angle of 2π radians being the
    input 360, and the other fields as in the example of the constructor's
    documentation. *)
Lemma SectorGeometry_rejects_witness :
  let sector := fun radius sectorAngle rotation granularity =>
    Some {| Sector.radius := JsNumber radius; Sector.sectorAngle := JsNumber sectorAngle;
            Sector.rotation := JsNumber rotation; Sector.granularity := JsNumber granularity |} in
  isDeveloperError (Sector.SectorGeometry (sector 0 45 60 (2 / 100))%R) /\
  isDeveloperError (Sector.SectorGeometry (sector (-5) 45 60 (2 / 100))%R) /\
  isDeveloperError (Sector.SectorGeometry (sector 1000 0 60 (2 / 100))%R) /\
  isDeveloperError (Sector.SectorGeometry (sector 1000 360 60 (2 / 100))%R) /\
  isDeveloperError (Sector.SectorGeometry (sector 1000 45 400 (2 / 100))%R) /\
  isDeveloperError (Sector.SectorGeometry (sector 1000 45 60 0)%R).
Proof.
  intros sector. unfold sector.
  repeat split; apply SectorGeometry_rejects; cbn [Sector.radius Sector.sectorAngle
    Sector.rotation Sector.granularity].
  - left. exists 0%R. split; [reflexivity | lra].
  - left. exists (-5)%R. split; [reflexivity | lra].
  - right; left. exists 0%R. split; [reflexivity|]. left. lra.
  - right; left. exists 360%R. split; [reflexivity|]. right; left. lra.
  - right; right; left. exists 400%R. split; [reflexivity | lra].
  - right; right; right. exists 0%R. split; [reflexivity | lra].
Defined.

(** C4 as stated fails: the sector angle 8 is at least 2π, and the
    constructor, which takes it for 8 degrees, returns a descriptor. *)
Lemma SectorGeometry_rejects_counterexample :
  (TWO_PI <= 8)%R /\
  exists descriptor,
    Sector.SectorGeometry
      (Some {| Sector.radius := JsNumber 1000; Sector.sectorAngle := JsNumber 8;
               Sector.rotation := JsNumber 60; Sector.granularity := JsNumber (2 / 100) |}) =
      Return descriptor.
Proof.
  split; [unfold TWO_PI; pose proof PI_4; lra|].
  destruct (SectorGeometry_createGeometry 1000 8 60 (2 / 100)
              ltac:(lra) ltac:(lra) ltac:(lra) ltac:(lra)) as (descriptor & Hret & _).
  exists descriptor. exact Hret.
Qed.

(** C10: with a positive radius and a sector angle inside (0, 2π), an
    omitted rotation becomes 0.0 and an omitted granularity becomes 0.02,
    and the constructor returns the descriptor (a rotation in [0, 360] or a
    positive granularity that is given is kept); an omitted radius and an
    omitted sector angle are DeveloperErrors. *)
Theorem SectorGeometry_optional_fields (r d : R) (rotation granularity : JsValue) :
  (0 < r)%R ->
  (0 < toRadians d < TWO_PI)%R ->
  rotation = JsUndefined \/ (exists v, rotation = JsNumber v /\ (0 <= v <= 360)%R) ->
  granularity = JsUndefined \/ (exists v, granularity = JsNumber v /\ (0 < v)%R) ->
  let given := fun radius sectorAngle =>
    Some {| Sector.radius := radius; Sector.sectorAngle := sectorAngle;
            Sector.rotation := rotation; Sector.granularity := granularity |} in
  Sector.SectorGeometry (given (JsNumber r) (JsNumber d)) =
    Return {| Sector._radius := JsNumber r;
              Sector._sectorAngle := JsNumber (toRadians d);
              Sector._rotation := if defined rotation then rotation else JsNumber 0;
              Sector._granularity := if defined granularity then granularity else JsNumber (2 / 100);
              Sector._workerName := "createSectorGeometry" |} /\
  isDeveloperError (Sector.SectorGeometry (given JsUndefined (JsNumber d))) /\
  isDeveloperError (Sector.SectorGeometry (given (JsNumber r) JsUndefined)) /\
  isDeveloperError (Sector.SectorGeometry (given JsUndefined JsUndefined)).
Proof.
  intros Hr Hd Hrot Hgran given.
  assert (Hrot' : js_lt (defaultValue rotation (JsNumber 0)) (JsNumber 0) = false /\
                  js_gt (defaultValue rotation (JsNumber 0)) (JsNumber 360) = false).
  { destruct Hrot as [-> | (v & -> & Hv)]; cbn [defaultValue defined];
      rewrite js_lt_number, js_gt_number; split; apply bool_decide_false_of; lra. }
  assert (Hgran' : js_le (defaultValue granularity (JsNumber (2 / 100))) (JsNumber 0) = false).
  { destruct Hgran as [-> | (v & -> & Hv)]; cbn [defaultValue defined];
      rewrite js_le_number; apply bool_decide_false_of; lra. }
  destruct Hrot' as [Hrot0 Hrot1].
  split; [|split; [|split]].
  - unfold given. rewrite SectorGeometry_passes; cbn [Sector.radius Sector.sectorAngle
      Sector.rotation Sector.granularity]; try assumption; try reflexivity.
    + rewrite js_le_number. apply bool_decide_false_of. lra.
    + rewrite js_toRadians_number, js_le_number. apply bool_decide_false_of. lra.
    + rewrite js_toRadians_number, js_ge_number. apply bool_decide_false_of. lra.
  - eexists. reflexivity.
  - eexists. reflexivity.
  - eexists. reflexivity.
Qed.

Lemma SectorGeometry_optional_fields_witness :
  Sector.SectorGeometry
    (Some {| Sector.radius := JsNumber 1000; Sector.sectorAngle := JsNumber 45;
             Sector.rotation := JsUndefined; Sector.granularity := JsUndefined |}) =
    Return {| Sector._radius := JsNumber 1000;
              Sector._sectorAngle := JsNumber (toRadians 45);
              Sector._rotation := JsNumber 0;
              Sector._granularity := JsNumber (2 / 100);
              Sector._workerName := "createSectorGeometry" |} /\
  isDeveloperError
    (Sector.SectorGeometry
       (Some {| Sector.radius := JsNumber 1000; Sector.sectorAngle := JsUndefined;
                Sector.rotation := JsUndefined; Sector.granularity := JsUndefined |})).
Proof.
  assert (H45 : (0 < toRadians 45 < TWO_PI)%R) by (apply toRadians_bounds; lra).
  destruct (SectorGeometry_optional_fields 1000 45 JsUndefined JsUndefined
              ltac:(lra) H45 (or_introl eq_refl) (or_introl eq_refl)) as (Hok & _ & Hmissing & _).
  split; [exact Hok | exact Hmissing].
Defined.

(** ** The ring builder *)

Lemma collectCart3s_lookup (vals : list R) : forall fuel i (cart3s : list Ring.Point3),
  length cart3s = i ->
  length vals <= i * 3 + fuel ->
  (forall n, n < i ->
     n * 3 < length vals /\
     cart3s !! n =
       Some (Ring.Cartesian3_fromElements (vals !! (n * 3)) (vals !! (n * 3 + 1))
                (vals !! (n * 3 + 2)))) ->
  forall n,
    Ring.collectCart3s fuel vals i cart3s !! n =
      if n * 3 <? length vals then
        Some (Ring.Cartesian3_fromElements (vals !! (n * 3)) (vals !! (n * 3 + 1))
                (vals !! (n * 3 + 2)))
      else None.
Proof.
  assert (Hstop : forall i (cart3s : list Ring.Point3),
            length cart3s = i -> length vals <= i * 3 ->
            (forall n, n < i ->
               n * 3 < length vals /\
               cart3s !! n =
                 Some (Ring.Cartesian3_fromElements (vals !! (n * 3)) (vals !! (n * 3 + 1))
                (vals !! (n * 3 + 2)))) ->
            forall n,
              cart3s !! n =
                if n * 3 <? length vals then
                  Some (Ring.Cartesian3_fromElements (vals !! (n * 3)) (vals !! (n * 3 + 1))
                (vals !! (n * 3 + 2)))
                else None).
  { intros i cart3s Hlen Hend Hacc n.
    destruct (Nat.ltb_spec (n * 3) (length vals)) as [Hlt|Hge].
    - destruct (Hacc n ltac:(lia)) as [_ Hn]. exact Hn.
    - apply lookup_ge_None.
      destruct (Nat.le_gt_cases i n) as [Hin|Hin]; [lia|].
      destruct (Hacc n Hin) as [Hn _]. lia. }
  induction fuel as [|fuel IH]; intros i cart3s Hlen Hfuel Hacc n.
  - simpl. apply (Hstop i); [assumption | lia | assumption].
  - simpl. destruct (Nat.ltb_spec (i * 3) (length vals)) as [Hlt|Hge].
    + apply IH.
      * rewrite length_app. simpl. lia.
      * lia.
      * intros m Hm. destruct (Nat.eq_dec m i) as [->|Hne].
        -- split; [exact Hlt|].
           rewrite lookup_app_r by lia.
           replace (i - length cart3s) with 0 by lia. reflexivity.
        -- destruct (Hacc m ltac:(lia)) as [Hm3 Hm'].
           split; [exact Hm3|]. rewrite lookup_app_l by lia. exact Hm'.
    + apply (Hstop i); assumption.
Qed.

(** Reading the collected points at an index is reading the triple of the
    flat buffer at that index. *)
Lemma readAt_collectCart3s (vals : list R) (index : Z) :
  Ring.readAt (Ring.collectCart3s (length vals) vals 0 []) index = Ring.tripleAt vals index.
Proof.
  unfold Ring.readAt, Ring.tripleAt.
  destruct (index <? 0)%Z; [reflexivity|].
  apply collectCart3s_lookup; [reflexivity | lia | intros n Hn; lia].
Qed.

(** The first loop of [createGeometry] leaves by its own test: fuel
    beyond [vals.length] changes nothing. *)
Lemma collectCart3s_fuel (vals : list R) fuel :
  length vals <= fuel ->
  Ring.collectCart3s fuel vals 0 [] = Ring.collectCart3s (length vals) vals 0 [].
Proof.
  intros Hfuel. apply list_eq. intros n.
  rewrite !collectCart3s_lookup; try reflexivity; try lia; intros m Hm; lia.
Qed.

Lemma pushPositions_map (cart3s : list Ring.Point3) (indices : list Z) :
  forall positions,
    Ring.pushPositions cart3s indices positions =
      positions ++ map (Ring.readAt cart3s) indices.
Proof.
  induction indices as [|index rest IH]; intros positions; simpl.
  - rewrite app_nil_r. reflexivity.
  - rewrite IH, <- app_assoc. reflexivity.
Qed.

Lemma pushPositions_boundary (vals : list R) (indices : list Z) :
  Ring.pushPositions (Ring.collectCart3s (length vals) vals 0 []) indices [] =
    Ring.boundaryOf vals indices.
Proof.
  rewrite pushPositions_map. simpl. unfold Ring.boundaryOf.
  apply map_ext. intros index. apply readAt_collectCart3s.
Qed.

Section RingProperties.

Context {EllipseOutline Polygon Transferable : Type}.
Variable newEllipseOutlineGeometry : EllipseOutlineGeometry.Options -> Completion EllipseOutline.
Variable EllipseOutlineGeometry_createGeometry : EllipseOutline -> Completion Geometry.
Variable newPolygonGeometry : Ring.PolygonHierarchy -> Completion Polygon.
Variable transferGeometry : Ring.Result -> Transferable -> Completion unit.

Local Abbreviation RingGeometry := (Ring.RingGeometry EllipseOutline newEllipseOutlineGeometry).
Local Abbreviation createGeometry :=
  (Ring.createGeometry EllipseOutline EllipseOutlineGeometry_createGeometry
     Polygon newPolygonGeometry).
Local Abbreviation computeRing :=
  (Ring.computeRing EllipseOutline newEllipseOutlineGeometry
     EllipseOutlineGeometry_createGeometry Polygon newPolygonGeometry).
Local Abbreviation createRingGeometry :=
  (Ring.createRingGeometry EllipseOutline EllipseOutlineGeometry_createGeometry
     Polygon newPolygonGeometry Transferable transferGeometry).

(** The constructor either throws a DeveloperError at one of its tests or,
    every test having passed, builds the two ellipse outlines. *)
Lemma RingGeometry_cases (options : option Ring.Options) :
  let o := defaultArgument options Ring.EMPTY_OBJECT in
  let outerRadius := Ring.outerRadius o in
  let innerRadius := Ring.innerRadius o in
  isDeveloperError (RingGeometry options) \/
  (RingGeometry options =
     (innerEllipseGeometry ← newEllipseOutlineGeometry
        (Ring.innerEllipseGeometryOptions o innerRadius);
      outerEllipseGeometry ← newEllipseOutlineGeometry
        (Ring.outerEllipseGeometryOptions o outerRadius);
      Return {| Ring._innerEllipseGeometry := innerEllipseGeometry;
                Ring._outerEllipseGeometry := outerEllipseGeometry;
                Ring._workerName := "createRingGeometry" |}) /\
   typeof outerRadius = "number"%string /\ js_le outerRadius (JsNumber 0) = false /\
   typeof innerRadius = "number"%string /\ js_le innerRadius (JsNumber 0) = false /\
   js_ge innerRadius outerRadius = false).
Proof.
  intros o outerRadius innerRadius.
  unfold Ring.RingGeometry. fold o. fold outerRadius innerRadius.
  destruct (negb (defined outerRadius)) eqn:E1; [left; eexists; reflexivity|].
  destruct (negb (String.eqb (typeof outerRadius) "number")) eqn:E2;
    [left; eexists; reflexivity|].
  destruct (js_le outerRadius (JsNumber 0)) eqn:E3; [left; eexists; reflexivity|].
  cbn [mbind Completion_bind].
  destruct (negb (defined innerRadius)) eqn:E4; [left; eexists; reflexivity|].
  destruct (negb (String.eqb (typeof innerRadius) "number")) eqn:E5;
    [left; eexists; reflexivity|].
  destruct (js_le innerRadius (JsNumber 0) || js_ge innerRadius outerRadius) eqn:E6;
    [left; eexists; reflexivity|].
  cbn [mbind Completion_bind].
  right. bool_facts. apply String.eqb_eq in E2, E5. auto 10.
Qed.

(** C5: the ring constructor throws a DeveloperError, and with it the
    whole ring computation, so that no boundary is returned, when the inner
    radius equals or exceeds the outer radius, when either radius is a
    number <= 0, and when either radius is missing or not of type number
    (also when the options object itself is missing). *)
Theorem RingGeometry_rejects (options : option Ring.Options) :
  let o := defaultArgument options Ring.EMPTY_OBJECT in
  (exists a b, Ring.outerRadius o = JsNumber a /\ Ring.innerRadius o = JsNumber b /\
               ((b = a)%R \/ (b > a)%R)) \/
  (exists a, Ring.outerRadius o = JsNumber a /\ (a <= 0)%R) \/
  (exists b, Ring.innerRadius o = JsNumber b /\ (b <= 0)%R) \/
  typeof (Ring.outerRadius o) <> "number"%string \/
  typeof (Ring.innerRadius o) <> "number"%string ->
  isDeveloperError (RingGeometry options) /\
  isDeveloperError (computeRing options) /\
  forall result, computeRing options <> Return result.
Proof.
  intros o Hbad.
  assert (Herr : isDeveloperError (RingGeometry options)).
  { destruct (RingGeometry_cases options)
      as [Herr | (_ & Hto & Houter & Hti & Hinner & Hge)]; [exact Herr|].
    exfalso. fold o in Hto, Houter, Hti, Hinner, Hge.
    destruct Hbad as [(a & b & Ea & Eb & Hbad) | [(a & Ea & Hbad) |
                     [(b & Eb & Hbad) | [Hbad | Hbad]]]].
    - rewrite Ea, Eb, js_ge_number in Hge. bool_facts. lra.
    - rewrite Ea, js_le_number in Houter. bool_facts. lra.
    - rewrite Eb, js_le_number in Hinner. bool_facts. lra.
    - exact (Hbad Hto).
    - exact (Hbad Hti). }
  assert (Herr' : isDeveloperError (computeRing options)).
  { destruct Herr as [message Hm]. exists message.
    unfold Ring.computeRing. rewrite Hm. reflexivity. }
  repeat split; [exact Herr | exact Herr' |].
  intros result Hr. destruct Herr' as [message Hm]. congruence.
Qed.

(** C6: for valid ring parameters the constructor builds the inner and
    then the outer ellipse outline from two option objects; the first has
    both semi-axes equal to the inner radius, the second has both equal to
    the outer radius, and center, ellipsoid, height, extrudedHeight,
    granularity and numberOfVerticalLines are those of the input in both,
    so the two objects differ in the semi-axes only. *)
Theorem RingGeometry_ellipse_options (options : Ring.Options) (a b : R) :
  Ring.outerRadius options = JsNumber a ->
  Ring.innerRadius options = JsNumber b ->
  (0 < b < a)%R ->
  let inner := Ring.innerEllipseGeometryOptions options (JsNumber b) in
  let outer := Ring.outerEllipseGeometryOptions options (JsNumber a) in
  RingGeometry (Some options) =
    (innerEllipseGeometry ← newEllipseOutlineGeometry inner;
     outerEllipseGeometry ← newEllipseOutlineGeometry outer;
     Return {| Ring._innerEllipseGeometry := innerEllipseGeometry;
               Ring._outerEllipseGeometry := outerEllipseGeometry;
               Ring._workerName := "createRingGeometry" |}) /\
  EllipseOutlineGeometry.semiMajorAxis inner = JsNumber b /\
  EllipseOutlineGeometry.semiMinorAxis inner = JsNumber b /\
  EllipseOutlineGeometry.semiMajorAxis outer = JsNumber a /\
  EllipseOutlineGeometry.semiMinorAxis outer = JsNumber a /\
  (forall o, o = inner \/ o = outer ->
     EllipseOutlineGeometry.center o = Ring.center options /\
     EllipseOutlineGeometry.ellipsoid o = Ring.ellipsoid options /\
     EllipseOutlineGeometry.height o = Ring.height options /\
     EllipseOutlineGeometry.extrudedHeight o = Ring.extrudedHeight options /\
     EllipseOutlineGeometry.granularity o = Ring.granularity options /\
     EllipseOutlineGeometry.numberOfVerticalLines o = Ring.numberOfVerticalLines options).
Proof.
  intros Ea Eb Hab inner outer.
  split; [|repeat split; try reflexivity; destruct H as [-> | ->]; reflexivity].
  assert (H1 : js_le (JsNumber a) (JsNumber 0) = false)
    by (rewrite js_le_number; apply bool_decide_false_of; lra).
  assert (H2 : js_le (JsNumber b) (JsNumber 0) = false)
    by (rewrite js_le_number; apply bool_decide_false_of; lra).
  assert (H3 : js_ge (JsNumber b) (JsNumber a) = false)
    by (rewrite js_ge_number; apply bool_decide_false_of; lra).
  unfold Ring.RingGeometry. cbn [defaultArgument]. rewrite Ea, Eb.
  cbn [defined typeof negb].
  change (String.eqb "number" "number") with true. cbn [negb].
  rewrite H1, H2, H3. reflexivity.
Qed.

(** C7: when the two outline generators return their geometries (and the
    polygon builder accepts the hierarchy), [createGeometry] returns, as
    outer boundary, the sequence whose i-th element is the position triple
    of the outer position buffer at index outerIndices[i], one element per
    entry of the index buffer and in its order, and as hole the inner
    position buffer read through innerIndices in the same way. *)
Theorem createGeometry_boundaries (ringGeometry : Ring.Descriptor EllipseOutline)
    (innerGeom outerGeom : Geometry) (poly : Polygon) :
  let innerVals := values (position innerGeom) in
  let outerVals := values (position outerGeom) in
  let innerIndices := indices innerGeom in
  let outerIndices := indices outerGeom in
  EllipseOutlineGeometry_createGeometry (Ring._innerEllipseGeometry _ ringGeometry) =
    Return innerGeom ->
  EllipseOutlineGeometry_createGeometry (Ring._outerEllipseGeometry _ ringGeometry) =
    Return outerGeom ->
  newPolygonGeometry
    {| Ring.hierarchyPositions := Ring.boundaryOf outerVals outerIndices;
       Ring.hierarchyHoles := [Ring.boundaryOf innerVals innerIndices] |} = Return poly ->
  exists result,
    createGeometry (Some ringGeometry) = Return result /\
    length (Ring.positions result) = length outerIndices /\
    length (Ring.holes result) = length innerIndices /\
    (forall (i : nat) (index : Z),
       outerIndices !! i = Some index ->
       Ring.positions result !! i = Some (Ring.tripleAt outerVals index)) /\
    (forall (i : nat) (index : Z),
       innerIndices !! i = Some index ->
       Ring.holes result !! i = Some (Ring.tripleAt innerVals index)).
Proof.
  intros innerVals outerVals innerIndices outerIndices Hinner Houter Hpoly.
  exists {| Ring.positions := Ring.boundaryOf outerVals outerIndices;
            Ring.holes := Ring.boundaryOf innerVals innerIndices |}.
  split.
  - unfold Ring.createGeometry. cbn [mbind Completion_bind].
    rewrite Hinner. cbn [mbind Completion_bind].
    rewrite Houter. cbn [mbind Completion_bind].
    fold innerVals outerVals innerIndices outerIndices.
    rewrite !pushPositions_boundary, Hpoly. reflexivity.
  - cbn [Ring.positions Ring.holes]. unfold Ring.boundaryOf.
    rewrite !length_map. repeat split.
    + intros i index Hi. rewrite list_lookup_fmap, Hi. reflexivity.
    + intros i index Hi. rewrite list_lookup_fmap, Hi. reflexivity.
Qed.

(** C9: the worker entry point calls [RingGeometry.createGeometry]
    without an argument, so for every parameters object it ends in the
    TypeError of reading a property of [undefined] and returns no result. *)
Theorem createRingGeometry_throws (parameters : Ring.Parameters)
    (transferableObjects : Transferable) :
  createGeometry None = Throw TypeError /\
  createRingGeometry parameters transferableObjects = Throw TypeError /\
  forall result, createRingGeometry parameters transferableObjects <> Return result.
Proof.
  repeat split. intros result. unfold Ring.createRingGeometry. cbn. discriminate.
Qed.

End RingProperties.

Lemma RingGeometry_rejects_witness :
  let ring := fun options =>
    Ring.computeRing _ keepOptions sampleCreateGeometry _ acceptPolygon options in
  isDeveloperError (ring (Some (sampleRing (JsNumber 5) (JsNumber 5)))) /\
  isDeveloperError (ring (Some (sampleRing (JsNumber 7) (JsNumber 5)))) /\
  isDeveloperError (ring (Some (sampleRing (JsNumber 1) (JsNumber 0)))) /\
  isDeveloperError (ring (Some (sampleRing (JsNumber (-1)) (JsNumber 5)))) /\
  isDeveloperError (ring (Some (sampleRing JsUndefined (JsNumber 5)))) /\
  isDeveloperError (ring (Some (sampleRing (JsNumber 1) (JsBoolean true)))) /\
  isDeveloperError (ring None).
Proof.
  intros ring. unfold ring.
  repeat split;
    apply (RingGeometry_rejects keepOptions sampleCreateGeometry acceptPolygon);
    cbn [defaultArgument sampleRing Ring.EMPTY_OBJECT Ring.outerRadius Ring.innerRadius].
  - left. exists 5%R, 5%R. repeat split. left. reflexivity.
  - left. exists 5%R, 7%R. repeat split. right. lra.
  - right; left. exists 0%R. split; [reflexivity | lra].
  - right; right; left. exists (-1)%R. split; [reflexivity | lra].
  - right; right; right; right. cbn. discriminate.
  - right; right; right; left. cbn. discriminate.
  - right; right; right; left. cbn. discriminate.
Defined.

Lemma RingGeometry_ellipse_options_witness :
  Ring.RingGeometry _ keepOptions (Some (sampleRing (JsNumber 30000) (JsNumber 110000))) =
    Return {|
      Ring._innerEllipseGeometry :=
        Ring.innerEllipseGeometryOptions
          (sampleRing (JsNumber 30000) (JsNumber 110000)) (JsNumber 30000);
      Ring._outerEllipseGeometry :=
        Ring.outerEllipseGeometryOptions
          (sampleRing (JsNumber 30000) (JsNumber 110000)) (JsNumber 110000);
      Ring._workerName := "createRingGeometry" |}.
Proof.
  destruct (RingGeometry_ellipse_options keepOptions
              (sampleRing (JsNumber 30000) (JsNumber 110000)) 110000 30000
              eq_refl eq_refl ltac:(lra)) as [Hbuilt _].
  rewrite Hbuilt. reflexivity.
Defined.

Lemma createGeometry_boundaries_witness :
  let ringGeometry :=
    {| Ring._innerEllipseGeometry :=
         Ring.innerEllipseGeometryOptions
           (sampleRing (JsNumber 30000) (JsNumber 110000)) (JsNumber 30000);
       Ring._outerEllipseGeometry :=
         Ring.outerEllipseGeometryOptions
           (sampleRing (JsNumber 30000) (JsNumber 110000)) (JsNumber 110000);
       Ring._workerName := "createRingGeometry" |} in
  exists result,
    Ring.createGeometry _ sampleCreateGeometry _ acceptPolygon (Some ringGeometry) =
      Return result /\
    Ring.positions result =
      [Some (fromElements (Some 4%R) (Some 5%R) (Some 6%R));
       Some (fromElements (Some 1%R) (Some 2%R) (Some 3%R));
       Some (fromElements (Some 4%R) (Some 5%R) (Some 6%R))].
Proof.
  intros ringGeometry.
  destruct (createGeometry_boundaries sampleCreateGeometry acceptPolygon
              ringGeometry sampleOutline sampleOutline tt eq_refl eq_refl eq_refl)
    as (result & Hresult & Hlen & _ & Hpositions & _).
  exists result. split; [exact Hresult|].
  apply list_eq. intros i.
  destruct i as [|[|[|i]]].
  - exact (Hpositions 0 1%Z eq_refl).
  - exact (Hpositions 1 0%Z eq_refl).
  - exact (Hpositions 2 1%Z eq_refl).
  - cbn. apply lookup_ge_None. rewrite Hlen. cbn. lia.
Defined.

(** ** Further properties of the sector mesh *)

Lemma step_angle_bounds options :
  validSector options ->
  (0 < Sector.theta options <= Sector.granularity options)%R /\
  (IZR (Sector.numPts options - 1) * Sector.theta options = Sector.sectorAngle options)%R.
Proof.
  intros Hvalid. pose proof (numPts_ge_2 options Hvalid) as Hn.
  destruct Hvalid as (_ & [Hsa _] & _ & Hg).
  unfold Sector.theta. unfold Sector.numPts in *.
  set (q := (Sector.sectorAngle options / Sector.granularity options)%R) in *.
  replace (1 + Zceil q - 1)%Z with (Zceil q) by lia.
  destruct (Zceil_bound q) as [Hlow Hup].
  assert (Hc : (0 < IZR (Zceil q))%R) by (apply IZR_lt; lia).
  assert (Hq : (Sector.sectorAngle options = q * Sector.granularity options)%R)
    by (unfold q; field; lra).
  split; [split|].
  - apply Rdiv_lt_0_compat; assumption.
  - apply (Rmult_le_reg_r (IZR (Zceil q))); [exact Hc|].
    replace (Sector.sectorAngle options / IZR (Zceil q) * IZR (Zceil q))%R
      with (Sector.sectorAngle options) by (field; lra).
    rewrite Hq. rewrite (Rmult_comm (Sector.granularity options)).
    apply Rmult_le_compat_r; lra.
  - field. lra.
Qed.

(** X1: over real arithmetic, for valid parameters the step angle is
    positive and never wider than the granularity, numPts-1 steps span the
    sector angle exactly, and no smaller number of equal steps would stay
    within the granularity. *)
Theorem theta_within_granularity options :
  validSector options ->
  (0 < Sector.theta options <= Sector.granularity options)%R /\
  (IZR (Sector.numPts options - 1) * Sector.theta options = Sector.sectorAngle options)%R /\
  (forall m : Z,
     (1 <= m < Sector.numPts options - 1)%Z ->
     (Sector.granularity options < Sector.sectorAngle options / IZR m)%R).
Proof.
  intros Hvalid. destruct (step_angle_bounds options Hvalid) as [Hb Hs].
  split; [exact Hb|]. split; [exact Hs|].
  destruct Hvalid as (_ & [Hsa _] & _ & Hg).
  unfold Sector.numPts.
  set (q := (Sector.sectorAngle options / Sector.granularity options)%R).
  assert (Hq : (Sector.sectorAngle options = q * Sector.granularity options)%R)
    by (unfold q; field; lra).
  destruct (Zceil_bound q) as [Hlow Hup].
  intros m Hm.
  assert (Hm0 : (0 < IZR m)%R) by (apply IZR_lt; lia).
  assert (Hmq : (IZR m < q)%R).
  { assert (IZR m <= IZR (Zceil q) - 1)%R; [|lra].
    rewrite <- minus_IZR. apply IZR_le. lia. }
  apply (Rmult_lt_reg_r (IZR m)); [exact Hm0|].
  replace (Sector.sectorAngle options / IZR m * IZR m)%R
    with (Sector.sectorAngle options) by (field; lra).
  rewrite Hq. rewrite (Rmult_comm (Sector.granularity options)).
  apply Rmult_lt_compat_r; lra.
Qed.

Lemma theta_within_granularity_witness :
  validSector coarseSector /\
  (0 < Sector.theta coarseSector <= 1 / 8)%R /\
  (4 * Sector.theta coarseSector = 1 / 2)%R.
Proof.
  split; [exact coarseSector_valid|].
  destruct (theta_within_granularity coarseSector coarseSector_valid) as (Hb & Hs & _).
  rewrite coarseSector_numPts in Hs. split; [exact Hb | exact Hs].
Defined.

(** X2: for valid parameters arc point k, for k in [1, numPts], is the
    point of the circle of the given radius at the angle
    rotation + (k-1)·theta, in the plane z = 0: the incremental rotation
    gives what a direct evaluation of cos and sin would. *)
Theorem computeSector_point_angles options :
  validSector options ->
  exists g,
    Sector.computeSector options = Return g /\
    forall k : nat,
      (1 <= Z.of_nat k <= Sector.numPts options)%Z ->
      pointAt (values (position g)) k =
        (Some (cos (toRadians (Sector.rotation options) + INR (k - 1) * Sector.theta options)
               * Sector.radius options)%R,
         Some (sin (toRadians (Sector.rotation options) + INR (k - 1) * Sector.theta options)
               * Sector.radius options)%R,
         Some 0%R).
Proof.
  intros Hvalid. pose proof (numPts_ge_2 options Hvalid) as Hn.
  eexists. split; [apply computeSector_closed; lia|].
  cbn [position values]. intros k Hk.
  rewrite sector_point by lia. rewrite iter_rotateStep. reflexivity.
Qed.

Lemma computeSector_point_angles_witness :
  validSector coarseSector /\
  exists g,
    Sector.computeSector coarseSector = Return g /\
    pointAt (values (position g)) 3 =
      (Some (cos (toRadians 0 + INR 2 * Sector.theta coarseSector) * 1000)%R,
       Some (sin (toRadians 0 + INR 2 * Sector.theta coarseSector) * 1000)%R,
       Some 0%R).
Proof.
  split; [exact coarseSector_valid|].
  destruct (computeSector_point_angles coarseSector coarseSector_valid) as (g & Hg & Hpts).
  exists g. split; [exact Hg|].
  apply (Hpts 3). rewrite coarseSector_numPts. lia.
Defined.

Lemma cos_one_outside (s : R) : (0 < s < 2 * PI)%R -> cos s <> 1%R.
Proof.
  intros [H0 H2] Hcos.
  pose proof (cos_2a_sin (s / 2)) as Hdouble.
  replace (2 * (s / 2))%R with s in Hdouble by field.
  pose proof (sin_gt_0 (s / 2) ltac:(lra) ltac:(lra)) as Hsin.
  assert (0 < sin (s / 2) * sin (s / 2))%R by (apply Rmult_lt_0_compat; assumption).
  lra.
Qed.

Lemma same_direction (a s : R) :
  cos (a + s) = cos a -> sin (a + s) = sin a -> cos s = 1%R.
Proof.
  intros Hc Hs.
  replace s with ((a + s) - a)%R at 1 by ring.
  rewrite cos_minus, Hc, Hs.
  pose proof (sin2_cos2 a) as H. unfold Rsqr in H. lra.
Qed.

Lemma arc_point_angle radius t rot n (k : nat) :
  (1 <= k <= n)%nat ->
  pointAt ([0%R; 0%R; 0%R] ++ arcPoints radius (cos t) (sin t) n (cos rot, sin rot)) k =
    (Some (cos (rot + INR (k - 1) * t) * radius)%R,
     Some (sin (rot + INR (k - 1) * t) * radius)%R, Some 0%R).
Proof.
  intros Hk. rewrite sector_point by exact Hk. rewrite iter_rotateStep. reflexivity.
Qed.

(** X3: over real arithmetic, for valid parameters the numPts arc points
    are pairwise distinct; in particular the last one does not come back to
    the first. *)
Theorem computeSector_points_distinct options :
  validSector options ->
  exists g,
    Sector.computeSector options = Return g /\
    forall i j : nat,
      (1 <= Z.of_nat i)%Z -> (i < j)%nat -> (Z.of_nat j <= Sector.numPts options)%Z ->
      pointAt (values (position g)) i <> pointAt (values (position g)) j.
Proof.
  intros Hvalid. pose proof (numPts_ge_2 options Hvalid) as Hn.
  pose proof (step_angle_bounds options Hvalid) as ([Ht0 _] & Hspan).
  destruct Hvalid as (Hr & [Hsa0 Hsa2] & _ & _).
  eexists. split; [apply computeSector_closed; lia|].
  cbn [position values]. intros i j Hi Hij Hj Heq.
  rewrite !arc_point_angle in Heq by lia.
  injection Heq as Hx Hy.
  apply Rmult_eq_reg_r in Hx; [|lra]. apply Rmult_eq_reg_r in Hy; [|lra].
  set (a := (toRadians (Sector.rotation options) + INR (i - 1) * Sector.theta options)%R) in *.
  set (s := (INR (j - i) * Sector.theta options)%R).
  assert (Hj' : (toRadians (Sector.rotation options) + INR (j - 1) * Sector.theta options
                 = a + s)%R).
  { unfold a, s. replace (j - 1) with ((i - 1) + (j - i)) by lia.
    rewrite plus_INR. ring. }
  rewrite Hj' in Hx, Hy.
  apply (cos_one_outside s); [|apply (same_direction a); congruence].
  assert (H1 : (1 <= INR (j - i))%R) by (apply (le_INR 1); lia).
  assert (H2 : (INR (j - i) <= IZR (Sector.numPts options - 1))%R).
  { rewrite INR_IZR_INZ. apply IZR_le. lia. }
  unfold s, TWO_PI in *. split.
  - apply Rmult_lt_0_compat; lra.
  - apply Rle_lt_trans with (IZR (Sector.numPts options - 1) * Sector.theta options)%R;
      [apply Rmult_le_compat_r; lra | lra].
Qed.

Lemma computeSector_points_distinct_witness :
  validSector coarseSector /\
  exists g,
    Sector.computeSector coarseSector = Return g /\
    pointAt (values (position g)) 1 <> pointAt (values (position g)) 5.
Proof.
  split; [exact coarseSector_valid|].
  destruct (computeSector_points_distinct coarseSector coarseSector_valid) as (g & Hg & Hd).
  exists g. split; [exact Hg|].
  apply Hd; [lia | lia | rewrite coarseSector_numPts; lia].
Defined.

(** X4: over real arithmetic, for valid parameters with
    numPts <= 65535 every stored triangle (0, a, b) of the index buffer
    starts at the origin and, for the positions (x1, y1, 0) and (x2, y2, 0)
    that a and b point to, x1·y2 - y1·x2 = radius²·sin theta: all triangles
    have the same signed area.  When the granularity is below π it is
    positive, so every triangle is wound counter-clockwise. *)
Theorem computeSector_winding options :
  validSector options ->
  (Sector.numPts options <= 65535)%Z ->
  exists g,
    Sector.computeSector options = Return g /\
    pointAt (values (position g)) 0 = (Some 0%R, Some 0%R, Some 0%R) /\
    forall k : nat,
      (1 <= Z.of_nat k <= Sector.numPts options - 1)%Z ->
      exists a b x1 y1 x2 y2,
        triangleAt (indices g) k = (Some 0%Z, Some a, Some b) /\
        pointAt (values (position g)) (Z.to_nat a) = (Some x1, Some y1, Some 0%R) /\
        pointAt (values (position g)) (Z.to_nat b) = (Some x2, Some y2, Some 0%R) /\
        (x1 * y2 - y1 * x2 =
           Sector.radius options * Sector.radius options * sin (Sector.theta options))%R /\
        ((Sector.granularity options < PI)%R -> (0 < x1 * y2 - y1 * x2)%R).
Proof.
  intros Hvalid Hsmall. pose proof (numPts_ge_2 options Hvalid) as Hn.
  pose proof (step_angle_bounds options Hvalid) as ([Ht0 Htg] & _).
  destruct Hvalid as (Hr & _).
  eexists. split; [apply computeSector_closed; lia|].
  cbn [position values indices]. split; [reflexivity|].
  intros k Hk.
  exists (Z.of_nat k), (Z.of_nat k + 1)%Z.
  rewrite fanIndices_triangle by lia. rewrite !toUint16_small by lia.
  replace (Z.to_nat (Z.of_nat k + 1)) with (k + 1) by lia.
  rewrite Nat2Z.id.
  rewrite !arc_point_angle by lia.
  do 4 eexists. split; [reflexivity|]. split; [reflexivity|]. split; [reflexivity|].
  set (a := (toRadians (Sector.rotation options) + INR (k - 1) * Sector.theta options)%R).
  replace (toRadians (Sector.rotation options) + INR (k + 1 - 1) * Sector.theta options)%R
    with (a + Sector.theta options)%R
    by (unfold a; replace (k + 1 - 1) with ((k - 1) + 1) by lia; rewrite plus_INR; simpl; ring).
  assert (Hcross : (cos a * Sector.radius options * (sin (a + Sector.theta options) * Sector.radius options)
                    - sin a * Sector.radius options * (cos (a + Sector.theta options) * Sector.radius options)
                    = Sector.radius options * Sector.radius options * sin (Sector.theta options))%R).
  { replace (Sector.theta options) with ((a + Sector.theta options) - a)%R at 3 by ring.
    rewrite sin_minus. ring. }
  split; [exact Hcross|].
  intros Hg. rewrite Hcross.
  apply Rmult_lt_0_compat; [apply Rmult_lt_0_compat; assumption|].
  apply sin_gt_0; lra.
Qed.

Lemma computeSector_winding_witness :
  validSector coarseSector /\
  exists g,
    Sector.computeSector coarseSector = Return g /\
    exists a b x1 y1 x2 y2,
      triangleAt (indices g) 4 = (Some 0%Z, Some a, Some b) /\
      pointAt (values (position g)) (Z.to_nat a) = (Some x1, Some y1, Some 0%R) /\
      pointAt (values (position g)) (Z.to_nat b) = (Some x2, Some y2, Some 0%R) /\
      (0 < x1 * y2 - y1 * x2)%R.
Proof.
  split; [exact coarseSector_valid|].
  destruct (computeSector_winding coarseSector coarseSector_valid
              ltac:(rewrite coarseSector_numPts; lia)) as (g & Hg & _ & Hw).
  exists g. split; [exact Hg|].
  destruct (Hw 4 ltac:(rewrite coarseSector_numPts; lia))
    as (a & b & x1 & y1 & x2 & y2 & Htri & H1 & H2 & _ & Hpos).
  exists a, b, x1, y1, x2, y2.
  split; [exact Htri|]. split; [exact H1|]. split; [exact H2|].
  apply Hpos. unfold coarseSector; cbn [Sector.granularity]. pose proof PI2_1. lra.
Defined.

(** X5: for valid parameters consecutive triangles of the index buffer
    share an edge: both start at index 0, and the last index of triangle k
    is the middle index of triangle k+1; this holds for the stored values,
    whether or not they have wrapped at 2^16. *)
Theorem computeSector_fan_connected options :
  validSector options ->
  exists g,
    Sector.computeSector options = Return g /\
    forall k : nat,
      (1 <= Z.of_nat k <= Sector.numPts options - 2)%Z ->
      exists a b c,
        triangleAt (indices g) k = (Some 0%Z, Some a, Some b) /\
        triangleAt (indices g) (k + 1) = (Some 0%Z, Some b, Some c).
Proof.
  intros Hvalid. pose proof (numPts_ge_2 options Hvalid) as Hn.
  eexists. split; [apply computeSector_closed; lia|].
  cbn [indices]. intros k Hk.
  rewrite !fanIndices_triangle by lia.
  do 3 eexists. split; [reflexivity|].
  replace (Z.of_nat (k + 1)) with (Z.of_nat k + 1)%Z by lia. reflexivity.
Qed.

Lemma computeSector_fan_connected_witness :
  validSector fineSector /\
  exists g,
    Sector.computeSector fineSector = Return g /\
    exists a b c,
      triangleAt (indices g) (Z.to_nat 65534) = (Some 0%Z, Some a, Some b) /\
      triangleAt (indices g) (Z.to_nat 65534 + 1) = (Some 0%Z, Some b, Some c).
Proof.
  split; [exact fineSector_valid|].
  destruct (computeSector_fan_connected fineSector fineSector_valid) as (g & Hg & Hc).
  exists g. split; [exact Hg|].
  apply Hc. rewrite fineSector_numPts. lia.
Defined.

(** ** [computeSector] outside the valid parameter sets *)

Lemma computeSector_no_samples options :
  (Sector.numPts options <= 0)%Z -> Sector.computeSector options = Throw RangeError.
Proof.
  intros Hn. unfold Sector.computeSector. fold (Sector.numPts options).
  set (n := Sector.numPts options) in *. unfold newTypedArray.
  destruct (Z.ltb_spec ((n + 1) * 3) 0) as [Hneg|Hpos]; [reflexivity|].
  cbn [mbind Completion_bind].
  destruct (Z.ltb_spec ((n - 1) * 3) 0) as [Hneg|Hpos']; [reflexivity | lia].
Qed.

(** X6: [computeSector] checks nothing itself: given a granularity
    other than 0 with sectorAngle / granularity <= -1 (the two have opposite
    signs and the angle is at least as large in magnitude), it ends in the
    RangeError of a typed array of negative length. *)
Theorem computeSector_RangeError options :
  Sector.granularity options <> 0%R ->
  (Sector.sectorAngle options / Sector.granularity options <= -1)%R ->
  Sector.computeSector options = Throw RangeError.
Proof.
  intros _ Hq. apply computeSector_no_samples.
  destruct (Zceil_bound (Sector.sectorAngle options / Sector.granularity options))
    as [Hlow Hup].
  unfold Sector.numPts.
  assert (Zceil (Sector.sectorAngle options / Sector.granularity options) < 0)%Z; [|lia].
  apply lt_IZR. lra.
Qed.

Lemma computeSector_RangeError_witness :
  Sector.computeSector backwardSector = Throw RangeError.
Proof.
  assert (Hg : Sector.granularity backwardSector <> 0%R)
    by (unfold backwardSector; cbn [Sector.granularity]; lra).
  apply (computeSector_RangeError backwardSector Hg).
  unfold backwardSector; cbn [Sector.sectorAngle Sector.granularity].
  replace (1 / - (1 / 10))%R with (-10)%R by (field; lra). lra.
Defined.

(** X7: when -1 < sectorAngle / granularity <= 0 (a sector angle of 0,
    say) there is one sample: the mesh has the origin and the single arc
    point at the rotation angle, and its index buffer is empty. *)
Theorem computeSector_single_sample options :
  Sector.granularity options <> 0%R ->
  (-1 < Sector.sectorAngle options / Sector.granularity options <= 0)%R ->
  exists g,
    Sector.computeSector options = Return g /\
    values (position g) =
      [0%R; 0%R; 0%R;
       (cos (toRadians (Sector.rotation options)) * Sector.radius options)%R;
       (sin (toRadians (Sector.rotation options)) * Sector.radius options)%R;
       0%R] /\
    indices g = [].
Proof.
  intros _ [Hlow Hup].
  assert (Hn : Sector.numPts options = 1%Z).
  { unfold Sector.numPts. rewrite (Zceil_eq 0); [reflexivity | lra]. }
  eexists. split; [apply computeSector_closed; lia|].
  cbn [position values indices]. rewrite Hn. split; reflexivity.
Qed.

Lemma computeSector_single_sample_witness :
  exists g,
    Sector.computeSector flatSector = Return g /\
    length (values (position g)) = 6 /\
    indices g = [].
Proof.
  assert (Hg : Sector.granularity flatSector <> 0%R)
    by (unfold flatSector; cbn [Sector.granularity]; lra).
  assert (Hq : (-1 < Sector.sectorAngle flatSector / Sector.granularity flatSector <= 0)%R)
    by (unfold flatSector; cbn [Sector.sectorAngle Sector.granularity]; lra).
  destruct (computeSector_single_sample flatSector Hg Hq) as (g & Hret & Hvals & Hidx).
  exists g. split; [exact Hret|]. split; [rewrite Hvals; reflexivity | exact Hidx].
Defined.

(** ** Further properties of the sector constructor *)

(** X8: a descriptor that the constructor returns for four real numbers
    comes from numbers within the bounds: radius > 0, 0 < sectorAngle < 360
    (degrees), 0 <= rotation <= 360 and granularity > 0.  It keeps the
    radius, the rotation (still in degrees) and the granularity as given and
    holds the sector angle converted to radians, inside (0, 2π). *)
Theorem SectorGeometry_descriptor (r d rot g : R) (descriptor : Sector.Descriptor) :
  Sector.SectorGeometry
    (Some {| Sector.radius := JsNumber r; Sector.sectorAngle := JsNumber d;
             Sector.rotation := JsNumber rot; Sector.granularity := JsNumber g |}) =
    Return descriptor ->
  ((0 < r)%R /\ (0 < d < 360)%R /\ (0 <= rot <= 360)%R /\ (0 < g)%R) /\
  (0 < toRadians d < TWO_PI)%R /\
  descriptor =
    {| Sector._radius := JsNumber r;
       Sector._sectorAngle := JsNumber (toRadians d);
       Sector._rotation := JsNumber rot;
       Sector._granularity := JsNumber g;
       Sector._workerName := "createSectorGeometry" |}.
Proof.
  intros Hd.
  pose proof (SectorGeometry_cases
                (Some {| Sector.radius := JsNumber r; Sector.sectorAngle := JsNumber d;
                         Sector.rotation := JsNumber rot;
                         Sector.granularity := JsNumber g |})) as Hcases.
  cbv zeta in Hcases.
  cbn [defaultArgument Sector.radius Sector.sectorAngle Sector.rotation Sector.granularity
       defaultValue defined] in Hcases.
  rewrite js_toRadians_number, !js_le_number, js_ge_number, js_lt_number, js_gt_number in Hcases.
  destruct Hcases as [[message Hm] | (Hret & _ & _ & H1 & H2 & H3 & H4 & H5 & H6 & _)];
    [congruence|].
  bool_facts.
  assert (Hrad : (0 < toRadians d < TWO_PI)%R) by lra.
  split; [|split; [exact Hrad | congruence]].
  apply toRadians_bounds in Hrad. repeat split; lra.
Qed.

Lemma SectorGeometry_descriptor_witness :
  (0 < toRadians 45 < TWO_PI)%R /\
  Sector.SectorGeometry
    (Some {| Sector.radius := JsNumber 1000; Sector.sectorAngle := JsNumber 45;
             Sector.rotation := JsNumber 60; Sector.granularity := JsNumber (2 / 100) |}) =
    Return {| Sector._radius := JsNumber 1000;
              Sector._sectorAngle := JsNumber (toRadians 45);
              Sector._rotation := JsNumber 60;
              Sector._granularity := JsNumber (2 / 100);
              Sector._workerName := "createSectorGeometry" |}.
Proof.
  destruct (SectorGeometry_createGeometry 1000 45 60 (2 / 100)
              ltac:(lra) ltac:(lra) ltac:(lra) ltac:(lra)) as (descriptor & Hret & _).
  destruct (SectorGeometry_descriptor 1000 45 60 (2 / 100) descriptor Hret)
    as (_ & Hrad & Hdescriptor).
  split; [exact Hrad|]. rewrite Hret, Hdescriptor. reflexivity.
Defined.

(** X9: the constructor converts the sector angle before it tests it,
    and the conversion throws its own error or gives a number (NaN for what is
    not one): the errors "sectorAngle must be specified!" and "sectorAngle
    must be a number!" are thrown for no options at all. *)
Theorem SectorGeometry_sectorAngle_type_tests_dead (options : option (Sector.Options JsValue)) :
  Sector.SectorGeometry options <> Throw (DeveloperError "sectorAngle must be specified!") /\
  Sector.SectorGeometry options <> Throw (DeveloperError "sectorAngle must be a number!").
Proof.
  unfold Sector.SectorGeometry, CesiumMath_toRadians.
  set (o := defaultArgument options Sector.EMPTY_OBJECT).
  destruct (defined (Sector.sectorAngle o)); [|split; discriminate].
  cbn [mbind Completion_bind].
  destruct (js_toRadians_is_number (Sector.sectorAngle o)) as [Hdef Htype].
  rewrite Hdef, Htype.
  change (String.eqb "number" "number") with true. cbn [negb].
  destruct (negb (defined (Sector.radius o))); [split; discriminate|].
  destruct (negb (String.eqb (typeof (Sector.radius o)) "number")); [split; discriminate|].
  destruct (js_le (Sector.radius o) (JsNumber 0)); [split; discriminate|].
  cbn [mbind Completion_bind].
  destruct (js_le _ _ || js_ge _ _); [split; discriminate|].
  cbn [mbind Completion_bind].
  destruct (js_lt _ _ || js_gt _ _); [split; discriminate|].
  cbn [mbind Completion_bind].
  destruct (js_le _ _); split; discriminate.
Qed.

(** X10: no test of the constructor rejects NaN: when each of the four
    fields is NaN or a number within its bounds, the constructor returns the
    descriptor, NaN included. *)
Theorem SectorGeometry_accepts_NaN (options : Sector.Options JsValue) :
  Sector.radius options = JsNaN \/
    (exists r, Sector.radius options = JsNumber r /\ (0 < r)%R) ->
  Sector.sectorAngle options = JsNaN \/
    (exists d, Sector.sectorAngle options = JsNumber d /\ (0 < d < 360)%R) ->
  Sector.rotation options = JsNaN \/
    (exists rot, Sector.rotation options = JsNumber rot /\ (0 <= rot <= 360)%R) ->
  Sector.granularity options = JsNaN \/
    (exists g, Sector.granularity options = JsNumber g /\ (0 < g)%R) ->
  Sector.SectorGeometry (Some options) =
    Return {| Sector._radius := Sector.radius options;
              Sector._sectorAngle := js_toRadians (Sector.sectorAngle options);
              Sector._rotation := Sector.rotation options;
              Sector._granularity := Sector.granularity options;
              Sector._workerName := "createSectorGeometry" |}.
Proof.
  intros Hr Hd Hrot Hg.
  rewrite SectorGeometry_passes.
  - f_equal. f_equal.
    + destruct Hrot as [-> | (v & -> & _)]; reflexivity.
    + destruct Hg as [-> | (v & -> & _)]; reflexivity.
  - destruct Hd as [-> | (v & -> & _)]; reflexivity.
  - destruct Hr as [-> | (v & -> & _)]; reflexivity.
  - destruct Hr as [-> | (v & -> & _)]; reflexivity.
  - destruct Hr as [-> | (v & -> & Hv)]; [reflexivity|].
    rewrite js_le_number. apply bool_decide_false_of. lra.
  - destruct Hd as [-> | (v & -> & Hv)]; [reflexivity|].
    apply toRadians_bounds in Hv.
    rewrite js_toRadians_number, js_le_number. apply bool_decide_false_of. lra.
  - destruct Hd as [-> | (v & -> & Hv)]; [reflexivity|].
    apply toRadians_bounds in Hv.
    rewrite js_toRadians_number, js_ge_number. apply bool_decide_false_of. lra.
  - destruct Hrot as [-> | (v & -> & Hv)]; [reflexivity|].
    cbn [defaultValue defined]. rewrite js_lt_number. apply bool_decide_false_of. lra.
  - destruct Hrot as [-> | (v & -> & Hv)]; [reflexivity|].
    cbn [defaultValue defined]. rewrite js_gt_number. apply bool_decide_false_of. lra.
  - destruct Hg as [-> | (v & -> & Hv)]; [reflexivity|].
    cbn [defaultValue defined]. rewrite js_le_number. apply bool_decide_false_of. lra.
Qed.

Lemma SectorGeometry_accepts_NaN_witness :
  Sector.SectorGeometry
    (Some {| Sector.radius := JsNaN; Sector.sectorAngle := JsNaN;
             Sector.rotation := JsNaN; Sector.granularity := JsNaN |}) =
    Return {| Sector._radius := JsNaN; Sector._sectorAngle := JsNaN;
              Sector._rotation := JsNaN; Sector._granularity := JsNaN;
              Sector._workerName := "createSectorGeometry" |}.
Proof.
  exact (SectorGeometry_accepts_NaN
           {| Sector.radius := JsNaN; Sector.sectorAngle := JsNaN;
              Sector.rotation := JsNaN; Sector.granularity := JsNaN |}
           (or_introl eq_refl) (or_introl eq_refl) (or_introl eq_refl) (or_introl eq_refl)).
Defined.

(** X11: the constructor, then the sector worker: given a descriptor that
    the constructor returned for four real numbers, the worker writes its
    one line to the console, ignores the offset and ends as [computeSector]
    ends on the radius, the rotation (in degrees) and the granularity as
    given and the sector angle in radians. *)
Theorem createSectorGeometry_pipeline (r d rot g : R) (descriptor : Sector.Descriptor)
    (offset : JsValue) :
  Sector.SectorGeometry
    (Some {| Sector.radius := JsNumber r; Sector.sectorAngle := JsNumber d;
             Sector.rotation := JsNumber rot; Sector.granularity := JsNumber g |}) =
    Return descriptor ->
  createSectorGeometry descriptor offset =
    (["sector worker thread"%string],
     Some (Sector.computeSector
             {| Sector.radius := r; Sector.sectorAngle := toRadians d;
                Sector.rotation := rot; Sector.granularity := g |})).
Proof.
  intros Hd.
  pose proof (SectorGeometry_cases
                (Some {| Sector.radius := JsNumber r; Sector.sectorAngle := JsNumber d;
                         Sector.rotation := JsNumber rot;
                         Sector.granularity := JsNumber g |})) as Hcases.
  cbv zeta in Hcases.
  cbn [defaultArgument Sector.radius Sector.sectorAngle Sector.rotation Sector.granularity
       defaultValue defined] in Hcases.
  rewrite js_toRadians_number in Hcases.
  destruct Hcases as [[message Hm] | (Hret & _)]; [congruence|].
  assert (Hdescriptor : descriptor =
            {| Sector._radius := JsNumber r;
               Sector._sectorAngle := JsNumber (toRadians d);
               Sector._rotation := JsNumber rot;
               Sector._granularity := JsNumber g;
               Sector._workerName := "createSectorGeometry" |}) by congruence.
  rewrite Hdescriptor. reflexivity.
Qed.

Lemma createSectorGeometry_pipeline_witness :
  exists descriptor,
    Sector.SectorGeometry
      (Some {| Sector.radius := JsNumber 1000; Sector.sectorAngle := JsNumber 45;
               Sector.rotation := JsNumber 60; Sector.granularity := JsNumber (2 / 100) |}) =
      Return descriptor /\
    createSectorGeometry descriptor JsUndefined =
      (["sector worker thread"%string],
       Some (Sector.computeSector
               {| Sector.radius := 1000%R; Sector.sectorAngle := toRadians 45;
                  Sector.rotation := 60%R; Sector.granularity := (2 / 100)%R |})).
Proof.
  destruct (SectorGeometry_createGeometry 1000 45 60 (2 / 100)
              ltac:(lra) ltac:(lra) ltac:(lra) ltac:(lra)) as (descriptor & Hret & _).
  exists descriptor. split; [exact Hret|].
  exact (createSectorGeometry_pipeline 1000 45 60 (2 / 100) descriptor JsUndefined Hret).
Defined.

(** ** Further properties of the ring builder *)

Lemma boundaryOf_lookup (vals : list R) (indices : list Z) (i : nat) (index : Z) :
  indices !! i = Some index ->
  Ring.boundaryOf vals indices !! i = Some (Ring.tripleAt vals index).
Proof.
  intros Hi. unfold Ring.boundaryOf. rewrite list_lookup_fmap, Hi. reflexivity.
Qed.

Lemma tripleAt_in_range (vals : list R) (index : Z) :
  (0 <= index)%Z -> (3 * index + 3 <= Z.of_nat (length vals))%Z ->
  exists x y z,
    Ring.tripleAt vals index = Some (fromElements (Some x) (Some y) (Some z)) /\
    vals !! (Z.to_nat index * 3) = Some x /\
    vals !! (Z.to_nat index * 3 + 1) = Some y /\
    vals !! (Z.to_nat index * 3 + 2) = Some z.
Proof.
  intros H0 Hlen. unfold Ring.tripleAt.
  destruct (Z.ltb_spec index 0) as [Hneg|_]; [lia|].
  destruct (Nat.ltb_spec (Z.to_nat index * 3) (length vals)) as [_|Hge]; [|lia].
  destruct (lookup_lt_is_Some_2 vals (Z.to_nat index * 3) ltac:(lia)) as [x Hx].
  destruct (lookup_lt_is_Some_2 vals (Z.to_nat index * 3 + 1) ltac:(lia)) as [y Hy].
  destruct (lookup_lt_is_Some_2 vals (Z.to_nat index * 3 + 2) ltac:(lia)) as [z Hz].
  exists x, y, z. rewrite Hx, Hy, Hz. auto.
Qed.

Lemma tripleAt_out_of_range (vals : list R) (index : Z) :
  (index < 0)%Z \/ (Z.of_nat (length vals) <= 3 * index)%Z ->
  Ring.tripleAt vals index = None.
Proof.
  intros Hout. unfold Ring.tripleAt.
  destruct (Z.ltb_spec index 0) as [Hneg|Hpos]; [reflexivity|].
  destruct (Nat.ltb_spec (Z.to_nat index * 3) (length vals)) as [Hlt|_]; [lia | reflexivity].
Qed.

(** X18: the first loop of [createGeometry] collects one point per
    started triple of the position buffer, ceil(length / 3) of them; when
    the length is not a multiple of 3 the last point is completed with 0.0:
    its z is 0. *)
Theorem collectCart3s_count (vals : list R) :
  let cart3s := Ring.collectCart3s (length vals) vals 0 [] in
  length cart3s = (length vals + 2) / 3 /\
  (length vals mod 3 <> 0 ->
   exists p, cart3s !! (length cart3s - 1) = Some p /\ z p = Some 0%R).
Proof.
  intros cart3s.
  assert (Hlookup : forall n,
            cart3s !! n =
              if n * 3 <? length vals then
                Some (Ring.Cartesian3_fromElements (vals !! (n * 3)) (vals !! (n * 3 + 1))
                (vals !! (n * 3 + 2)))
              else None).
  { intros n. apply collectCart3s_lookup; [reflexivity | lia | intros m Hm; lia]. }
  assert (Hlen : length cart3s = (length vals + 2) / 3).
  { set (m := (length vals + 2) / 3).
    assert (Hm : m * 3 < length vals + 3 /\ length vals <= m * 3).
    { unfold m. pose proof (Nat.div_mod_eq (length vals + 2) 3).
      pose proof (Nat.mod_upper_bound (length vals + 2) 3). lia. }
    assert (Hup : length cart3s <= m).
    { apply lookup_ge_None. rewrite Hlookup.
      destruct (Nat.ltb_spec (m * 3) (length vals)); [lia | reflexivity]. }
    destruct m as [|m']; [lia|].
    assert (Hdown : S m' - 1 < length cart3s).
    { apply lookup_lt_is_Some. rewrite Hlookup.
      destruct (Nat.ltb_spec ((S m' - 1) * 3) (length vals)); [eauto | lia]. }
    lia. }
  split; [exact Hlen|].
  intros Hmod. rewrite Hlen.
  pose proof (Nat.div_mod_eq (length vals + 2) 3) as Hdiv.
  pose proof (Nat.mod_upper_bound (length vals + 2) 3 ltac:(lia)) as Hrem.
  pose proof (Nat.div_mod_eq (length vals) 3) as Hdiv'.
  pose proof (Nat.mod_upper_bound (length vals) 3 ltac:(lia)) as Hrem'.
  set (m := (length vals + 2) / 3) in *.
  assert (Hlast : (m - 1) * 3 < length vals /\ length vals <= (m - 1) * 3 + 2) by lia.
  eexists. rewrite Hlookup.
  destruct (Nat.ltb_spec ((m - 1) * 3) (length vals)); [|lia].
  split; [reflexivity|]. unfold Ring.Cartesian3_fromElements. cbn [z].
  rewrite (lookup_ge_None_2 vals ((m - 1) * 3 + 2)) by lia. reflexivity.
Qed.

Lemma collectCart3s_count_witness :
  exists p,
    Ring.collectCart3s 4 [1%R; 2%R; 3%R; 4%R] 0 [] !! 1 = Some p /\ z p = Some 0%R.
Proof.
  destruct (collectCart3s_count [1%R; 2%R; 3%R; 4%R]) as [Hlen Hlast].
  destruct (Hlast ltac:(discriminate)) as (p & Hp & Hz).
  exists p. split; [|exact Hz].
  rewrite Hlen in Hp. exact Hp.
Defined.

Section RingComposition.

Context {EllipseOutline Polygon : Type}.
Variable newEllipseOutlineGeometry : EllipseOutlineGeometry.Options -> Completion EllipseOutline.
Variable EllipseOutlineGeometry_createGeometry : EllipseOutline -> Completion Geometry.
Variable newPolygonGeometry : Ring.PolygonHierarchy -> Completion Polygon.

Local Abbreviation RingGeometry := (Ring.RingGeometry EllipseOutline newEllipseOutlineGeometry).
Local Abbreviation createGeometry :=
  (Ring.createGeometry EllipseOutline EllipseOutlineGeometry_createGeometry
     Polygon newPolygonGeometry).
Local Abbreviation computeRing :=
  (Ring.computeRing EllipseOutline newEllipseOutlineGeometry
     EllipseOutlineGeometry_createGeometry Polygon newPolygonGeometry).

(** When no test fires the constructor goes on to the two outlines. *)
Lemma RingGeometry_passes (options : Ring.Options) :
  let outerRadius := Ring.outerRadius options in
  let innerRadius := Ring.innerRadius options in
  defined outerRadius = true -> typeof outerRadius = "number"%string ->
  js_le outerRadius (JsNumber 0) = false ->
  defined innerRadius = true -> typeof innerRadius = "number"%string ->
  js_le innerRadius (JsNumber 0) = false -> js_ge innerRadius outerRadius = false ->
  RingGeometry (Some options) =
    (innerEllipseGeometry ← newEllipseOutlineGeometry
       (Ring.innerEllipseGeometryOptions options innerRadius);
     outerEllipseGeometry ← newEllipseOutlineGeometry
       (Ring.outerEllipseGeometryOptions options outerRadius);
     Return {| Ring._innerEllipseGeometry := innerEllipseGeometry;
               Ring._outerEllipseGeometry := outerEllipseGeometry;
               Ring._workerName := "createRingGeometry" |}).
Proof.
  intros outerRadius innerRadius H1 H2 H3 H4 H5 H6 H7.
  unfold Ring.RingGeometry. cbn [defaultArgument]. fold outerRadius innerRadius.
  rewrite H1, H2, H3, H4, H5, H6, H7. reflexivity.
Qed.

Lemma RingGeometry_valid (options : Ring.Options) (a b : R) :
  Ring.outerRadius options = JsNumber a ->
  Ring.innerRadius options = JsNumber b ->
  (0 < b < a)%R ->
  RingGeometry (Some options) =
    (innerEllipseGeometry ← newEllipseOutlineGeometry
       (Ring.innerEllipseGeometryOptions options (JsNumber b));
     outerEllipseGeometry ← newEllipseOutlineGeometry
       (Ring.outerEllipseGeometryOptions options (JsNumber a));
     Return {| Ring._innerEllipseGeometry := innerEllipseGeometry;
               Ring._outerEllipseGeometry := outerEllipseGeometry;
               Ring._workerName := "createRingGeometry" |}).
Proof.
  intros Ea Eb Hab. rewrite RingGeometry_passes; rewrite ?Ea, ?Eb; try reflexivity;
    rewrite ?js_le_number, ?js_ge_number; apply bool_decide_false_of; lra.
Qed.

(** [createGeometry] when its three collaborators return. *)
Lemma createGeometry_closed (ringGeometry : Ring.Descriptor EllipseOutline)
    (innerGeom outerGeom : Geometry) (poly : Polygon) :
  EllipseOutlineGeometry_createGeometry (Ring._innerEllipseGeometry _ ringGeometry) =
    Return innerGeom ->
  EllipseOutlineGeometry_createGeometry (Ring._outerEllipseGeometry _ ringGeometry) =
    Return outerGeom ->
  newPolygonGeometry
    {| Ring.hierarchyPositions :=
         Ring.boundaryOf (values (position outerGeom)) (indices outerGeom);
       Ring.hierarchyHoles :=
         [Ring.boundaryOf (values (position innerGeom)) (indices innerGeom)] |} =
    Return poly ->
  createGeometry (Some ringGeometry) =
    Return {| Ring.positions :=
                Ring.boundaryOf (values (position outerGeom)) (indices outerGeom);
              Ring.holes :=
                Ring.boundaryOf (values (position innerGeom)) (indices innerGeom) |}.
Proof.
  intros Hinner Houter Hpoly.
  unfold Ring.createGeometry. cbn [mbind Completion_bind].
  rewrite Hinner. cbn [mbind Completion_bind].
  rewrite Houter. cbn [mbind Completion_bind].
  rewrite !pushPositions_boundary, Hpoly. reflexivity.
Qed.

(** X12: with valid radii, an error of the outline constructor is the
    error of the ring constructor: that of the inner outline first (the
    outer outline is then not built), else that of the outer outline. *)
Theorem RingGeometry_outline_errors (options : Ring.Options) (a b : R) (e : Error) :
  Ring.outerRadius options = JsNumber a ->
  Ring.innerRadius options = JsNumber b ->
  (0 < b < a)%R ->
  (newEllipseOutlineGeometry (Ring.innerEllipseGeometryOptions options (JsNumber b)) = Throw e ->
   RingGeometry (Some options) = Throw e) /\
  (forall inner,
     newEllipseOutlineGeometry (Ring.innerEllipseGeometryOptions options (JsNumber b)) =
       Return inner ->
     newEllipseOutlineGeometry (Ring.outerEllipseGeometryOptions options (JsNumber a)) =
       Throw e ->
     RingGeometry (Some options) = Throw e).
Proof.
  intros Ea Eb Hab. rewrite (RingGeometry_valid options a b Ea Eb Hab). split.
  - intros ->. reflexivity.
  - intros inner -> ->. reflexivity.
Qed.

(** X13: no test of the ring constructor rejects NaN: when each radius
    is NaN or a positive number, and the inner one is below the outer one
    if both are numbers, the constructor goes on to build the two outlines
    with these radii. *)
Theorem RingGeometry_accepts_NaN (options : Ring.Options) :
  Ring.outerRadius options = JsNaN \/
    (exists a, Ring.outerRadius options = JsNumber a /\ (0 < a)%R) ->
  Ring.innerRadius options = JsNaN \/
    (exists b, Ring.innerRadius options = JsNumber b /\ (0 < b)%R) ->
  (forall a b, Ring.outerRadius options = JsNumber a ->
               Ring.innerRadius options = JsNumber b -> (b < a)%R) ->
  RingGeometry (Some options) =
    (innerEllipseGeometry ← newEllipseOutlineGeometry
       (Ring.innerEllipseGeometryOptions options (Ring.innerRadius options));
     outerEllipseGeometry ← newEllipseOutlineGeometry
       (Ring.outerEllipseGeometryOptions options (Ring.outerRadius options));
     Return {| Ring._innerEllipseGeometry := innerEllipseGeometry;
               Ring._outerEllipseGeometry := outerEllipseGeometry;
               Ring._workerName := "createRingGeometry" |}).
Proof.
  intros Houter Hinner Hboth.
  apply RingGeometry_passes.
  - destruct Houter as [-> | (a & -> & _)]; reflexivity.
  - destruct Houter as [-> | (a & -> & _)]; reflexivity.
  - destruct Houter as [-> | (a & -> & Ha)]; [reflexivity|].
    rewrite js_le_number. apply bool_decide_false_of. lra.
  - destruct Hinner as [-> | (b & -> & _)]; reflexivity.
  - destruct Hinner as [-> | (b & -> & _)]; reflexivity.
  - destruct Hinner as [-> | (b & -> & Hb)]; [reflexivity|].
    rewrite js_le_number. apply bool_decide_false_of. lra.
  - destruct Hinner as [Ei | (b & Ei & Hb)]; [rewrite Ei; reflexivity|].
    destruct Houter as [Eo | (a & Eo & Ha)]; [rewrite Ei, Eo; reflexivity|].
    specialize (Hboth a b Eo Ei). rewrite Ei, Eo, js_ge_number.
    apply bool_decide_false_of. lra.
Qed.

(** X14: an error of a collaborator is the error of [createGeometry]:
    that of the inner outline generator first, then that of the outer one,
    and last that of the polygon builder, whose polygon is not part of the
    result. *)
Theorem createGeometry_collaborator_errors (ringGeometry : Ring.Descriptor EllipseOutline)
    (e : Error) :
  let inner := EllipseOutlineGeometry_createGeometry (Ring._innerEllipseGeometry _ ringGeometry) in
  let outer := EllipseOutlineGeometry_createGeometry (Ring._outerEllipseGeometry _ ringGeometry) in
  (inner = Throw e -> createGeometry (Some ringGeometry) = Throw e) /\
  (forall innerGeom,
     inner = Return innerGeom -> outer = Throw e ->
     createGeometry (Some ringGeometry) = Throw e) /\
  (forall innerGeom outerGeom,
     inner = Return innerGeom -> outer = Return outerGeom ->
     newPolygonGeometry
       {| Ring.hierarchyPositions :=
            Ring.boundaryOf (values (position outerGeom)) (indices outerGeom);
          Ring.hierarchyHoles :=
            [Ring.boundaryOf (values (position innerGeom)) (indices innerGeom)] |} =
       Throw e ->
     createGeometry (Some ringGeometry) = Throw e).
Proof.
  intros inner outer. unfold inner, outer.
  split; [|split].
  - intros H. unfold Ring.createGeometry. cbn [mbind Completion_bind].
    rewrite H. reflexivity.
  - intros innerGeom H1 H2. unfold Ring.createGeometry. cbn [mbind Completion_bind].
    rewrite H1. cbn [mbind Completion_bind]. rewrite H2. reflexivity.
  - intros innerGeom outerGeom H1 H2 H3.
    unfold Ring.createGeometry. cbn [mbind Completion_bind].
    rewrite H1. cbn [mbind Completion_bind]. rewrite H2. cbn [mbind Completion_bind].
    rewrite !pushPositions_boundary, H3. reflexivity.
Qed.

(** X15: construction, then [createGeometry]: with valid radii and
    collaborators that return, the outer boundary is read from the outline
    built with both semi-axes at the outer radius and the hole from the
    outline built at the inner radius, each through its index buffer. *)
Theorem computeRing_boundaries (options : Ring.Options) (a b : R)
    (inner outer : EllipseOutline) (innerGeom outerGeom : Geometry) (poly : Polygon) :
  Ring.outerRadius options = JsNumber a ->
  Ring.innerRadius options = JsNumber b ->
  (0 < b < a)%R ->
  newEllipseOutlineGeometry (Ring.innerEllipseGeometryOptions options (JsNumber b)) =
    Return inner ->
  newEllipseOutlineGeometry (Ring.outerEllipseGeometryOptions options (JsNumber a)) =
    Return outer ->
  EllipseOutlineGeometry_createGeometry inner = Return innerGeom ->
  EllipseOutlineGeometry_createGeometry outer = Return outerGeom ->
  newPolygonGeometry
    {| Ring.hierarchyPositions :=
         Ring.boundaryOf (values (position outerGeom)) (indices outerGeom);
       Ring.hierarchyHoles :=
         [Ring.boundaryOf (values (position innerGeom)) (indices innerGeom)] |} =
    Return poly ->
  computeRing (Some options) =
    Return {| Ring.positions :=
                Ring.boundaryOf (values (position outerGeom)) (indices outerGeom);
              Ring.holes :=
                Ring.boundaryOf (values (position innerGeom)) (indices innerGeom) |}.
Proof.
  intros Ea Eb Hab Hinner Houter Hgi Hgo Hpoly.
  unfold Ring.computeRing. rewrite (RingGeometry_valid options a b Ea Eb Hab).
  rewrite Hinner. cbn [mbind Completion_bind]. rewrite Houter. cbn [mbind Completion_bind].
  apply (createGeometry_closed _ innerGeom outerGeom poly); assumption.
Qed.

(** X16: when the collaborators return, an entry of an index buffer
    that points inside its position buffer (0 <= index and
    3·index + 3 <= length) gives a point all of whose coordinates are
    defined: the three buffer entries from 3·index on. *)
Theorem createGeometry_in_range (ringGeometry : Ring.Descriptor EllipseOutline)
    (innerGeom outerGeom : Geometry) (poly : Polygon) :
  EllipseOutlineGeometry_createGeometry (Ring._innerEllipseGeometry _ ringGeometry) =
    Return innerGeom ->
  EllipseOutlineGeometry_createGeometry (Ring._outerEllipseGeometry _ ringGeometry) =
    Return outerGeom ->
  newPolygonGeometry
    {| Ring.hierarchyPositions :=
         Ring.boundaryOf (values (position outerGeom)) (indices outerGeom);
       Ring.hierarchyHoles :=
         [Ring.boundaryOf (values (position innerGeom)) (indices innerGeom)] |} =
    Return poly ->
  exists result,
    createGeometry (Some ringGeometry) = Return result /\
    forall (geom : Geometry) (boundary : list (option Ring.Point3)),
      (geom = outerGeom /\ boundary = Ring.positions result) \/
      (geom = innerGeom /\ boundary = Ring.holes result) ->
      forall (i : nat) (index : Z),
        indices geom !! i = Some index ->
        (0 <= index)%Z ->
        (3 * index + 3 <= Z.of_nat (length (values (position geom))))%Z ->
        exists x y z,
          boundary !! i = Some (Some (fromElements (Some x) (Some y) (Some z))) /\
          values (position geom) !! (Z.to_nat index * 3) = Some x /\
          values (position geom) !! (Z.to_nat index * 3 + 1) = Some y /\
          values (position geom) !! (Z.to_nat index * 3 + 2) = Some z.
Proof.
  intros Hinner Houter Hpoly.
  eexists. split; [apply (createGeometry_closed _ innerGeom outerGeom poly); assumption|].
  cbn [Ring.positions Ring.holes].
  intros geom boundary Hwhich i index Hi H0 Hlen.
  destruct (tripleAt_in_range (values (position geom)) index H0 Hlen)
    as (x & y & z & Htriple & Hx & Hy & Hz).
  exists x, y, z. split; [|auto].
  destruct Hwhich as [[-> ->] | [-> ->]];
    rewrite (boundaryOf_lookup _ _ i index Hi), Htriple; reflexivity.
Qed.

(** X17: when the collaborators return, an entry of an index buffer that
    points outside its position buffer (index < 0 or length <= 3·index) does
    not make [createGeometry] fail: the boundary gets an undefined element
    in that place, and still has one element per index. *)
Theorem createGeometry_out_of_range (ringGeometry : Ring.Descriptor EllipseOutline)
    (innerGeom outerGeom : Geometry) (poly : Polygon) :
  EllipseOutlineGeometry_createGeometry (Ring._innerEllipseGeometry _ ringGeometry) =
    Return innerGeom ->
  EllipseOutlineGeometry_createGeometry (Ring._outerEllipseGeometry _ ringGeometry) =
    Return outerGeom ->
  newPolygonGeometry
    {| Ring.hierarchyPositions :=
         Ring.boundaryOf (values (position outerGeom)) (indices outerGeom);
       Ring.hierarchyHoles :=
         [Ring.boundaryOf (values (position innerGeom)) (indices innerGeom)] |} =
    Return poly ->
  exists result,
    createGeometry (Some ringGeometry) = Return result /\
    forall (geom : Geometry) (boundary : list (option Ring.Point3)),
      (geom = outerGeom /\ boundary = Ring.positions result) \/
      (geom = innerGeom /\ boundary = Ring.holes result) ->
      length boundary = length (indices geom) /\
      forall (i : nat) (index : Z),
        indices geom !! i = Some index ->
        (index < 0)%Z \/ (Z.of_nat (length (values (position geom))) <= 3 * index)%Z ->
        boundary !! i = Some None.
Proof.
  intros Hinner Houter Hpoly.
  eexists. split; [apply (createGeometry_closed _ innerGeom outerGeom poly); assumption|].
  cbn [Ring.positions Ring.holes].
  intros geom boundary Hwhich.
  assert (Hb : boundary = Ring.boundaryOf (values (position geom)) (indices geom))
    by (destruct Hwhich as [[-> ->] | [-> ->]]; reflexivity).
  rewrite Hb. split; [unfold Ring.boundaryOf; apply length_map|].
  intros i index Hi Hout.
  rewrite (boundaryOf_lookup _ _ i index Hi), tripleAt_out_of_range by exact Hout.
  reflexivity.
Qed.

End RingComposition.

Lemma RingGeometry_outline_errors_witness :
  Ring.RingGeometry _ refuseOptions (Some (sampleRing (JsNumber 30000) (JsNumber 110000))) =
    Throw (DeveloperError "center is required.").
Proof.
  destruct (RingGeometry_outline_errors refuseOptions
              (sampleRing (JsNumber 30000) (JsNumber 110000)) 110000 30000
              (DeveloperError "center is required.") eq_refl eq_refl ltac:(lra))
    as [Hinner _].
  apply Hinner. reflexivity.
Defined.

Lemma RingGeometry_accepts_NaN_witness :
  Ring.RingGeometry _ keepOptions (Some (sampleRing (JsNumber 5) JsNaN)) =
    Return {|
      Ring._innerEllipseGeometry :=
        Ring.innerEllipseGeometryOptions (sampleRing (JsNumber 5) JsNaN) (JsNumber 5);
      Ring._outerEllipseGeometry :=
        Ring.outerEllipseGeometryOptions (sampleRing (JsNumber 5) JsNaN) JsNaN;
      Ring._workerName := "createRingGeometry" |}.
Proof.
  rewrite (RingGeometry_accepts_NaN keepOptions (sampleRing (JsNumber 5) JsNaN)).
  - reflexivity.
  - left. reflexivity.
  - right. exists 5%R. split; [reflexivity | lra].
  - intros a b Ha. discriminate Ha.
Defined.

Lemma createGeometry_collaborator_errors_witness :
  Ring.createGeometry _ sampleCreateGeometry _ refusePolygon (Some sampleDescriptor) =
    Throw (DeveloperError "polygonHierarchy is required.").
Proof.
  destruct (createGeometry_collaborator_errors sampleCreateGeometry refusePolygon
              sampleDescriptor (DeveloperError "polygonHierarchy is required."))
    as (_ & _ & Hpoly).
  apply (Hpoly sampleOutline sampleOutline); reflexivity.
Defined.

Lemma computeRing_boundaries_witness :
  Ring.computeRing _ keepOptions axisOutline _ acceptPolygon
    (Some (sampleRing (JsNumber 30000) (JsNumber 110000))) =
    Return {| Ring.positions := [Some (fromElements (Some 110000%R) (Some 0%R) (Some 0%R))];
              Ring.holes := [Some (fromElements (Some 30000%R) (Some 0%R) (Some 0%R))] |}.
Proof.
  rewrite (computeRing_boundaries keepOptions axisOutline acceptPolygon
             (sampleRing (JsNumber 30000) (JsNumber 110000)) 110000 30000
             _ _ _ _ tt eq_refl eq_refl ltac:(lra) eq_refl eq_refl eq_refl eq_refl eq_refl).
  reflexivity.
Defined.

Lemma createGeometry_in_range_witness :
  exists result,
    Ring.createGeometry _ sampleCreateGeometry _ acceptPolygon (Some sampleDescriptor) =
      Return result /\
    Ring.positions result !! 0 =
      Some (Some (fromElements (Some 4%R) (Some 5%R) (Some 6%R))).
Proof.
  destruct (createGeometry_in_range sampleCreateGeometry acceptPolygon sampleDescriptor
              sampleOutline sampleOutline tt eq_refl eq_refl eq_refl)
    as (result & Hresult & Hin).
  exists result. split; [exact Hresult|].
  destruct (Hin sampleOutline (Ring.positions result) (or_introl (conj eq_refl eq_refl))
              0 1%Z eq_refl ltac:(lia) ltac:(cbn; lia))
    as (x & y & z & Hpoint & Hx & Hy & Hz).
  cbn in Hx, Hy, Hz. injection Hx as <-. injection Hy as <-. injection Hz as <-.
  exact Hpoint.
Defined.

Lemma createGeometry_out_of_range_witness :
  exists result,
    Ring.createGeometry _ strayCreateGeometry _ acceptPolygon (Some sampleDescriptor) =
      Return result /\
    length (Ring.positions result) = 2 /\
    Ring.positions result !! 1 = Some None.
Proof.
  destruct (createGeometry_out_of_range strayCreateGeometry acceptPolygon sampleDescriptor
              strayOutline strayOutline tt eq_refl eq_refl eq_refl)
    as (result & Hresult & Hout).
  exists result. split; [exact Hresult|].
  destruct (Hout strayOutline (Ring.positions result) (or_introl (conj eq_refl eq_refl)))
    as [Hlen Hlookup].
  split; [exact Hlen|].
  apply (Hlookup 1 7%Z eq_refl). right. cbn. lia.
Defined.

(** ** Which error the constructors throw *)

Lemma bool_decide_true_of (P : Prop) `{Decision P} : P -> bool_decide P = true.
Proof. apply bool_decide_eq_true. Qed.



(** X21: rotations of 0 and of 360 degrees give the same mesh, whatever
    the other parameters are. *)
Theorem computeSector_full_turn (radius sectorAngle granularity : R) :
  Sector.computeSector
    {| Sector.radius := radius; Sector.sectorAngle := sectorAngle;
       Sector.rotation := 360%R; Sector.granularity := granularity |} =
  Sector.computeSector
    {| Sector.radius := radius; Sector.sectorAngle := sectorAngle;
       Sector.rotation := 0%R; Sector.granularity := granularity |}.
Proof.
  unfold Sector.computeSector. cbn [Sector.radius Sector.sectorAngle Sector.rotation
    Sector.granularity].
  assert (H360 : toRadians 360 = (2 * PI)%R)
    by (unfold toRadians, RADIANS_PER_DEGREE; field).
  assert (H0 : toRadians 0 = 0%R) by (unfold toRadians; ring).
  rewrite H360, H0, cos_2PI, sin_2PI, cos_0, sin_0. reflexivity.
Qed.

(** X22: the index buffer and the size of the position buffer depend on
    the sector angle and the granularity only: two calls that agree on these
    both throw or both return, and when they return their index buffers
    are equal and their position buffers have the same length, whatever the
    radii and rotations are. *)
Theorem computeSector_indices_independent (o1 o2 : Sector.Options R) :
  Sector.sectorAngle o1 = Sector.sectorAngle o2 ->
  Sector.granularity o1 = Sector.granularity o2 ->
  (Sector.computeSector o1 = Throw RangeError /\ Sector.computeSector o2 = Throw RangeError) \/
  (exists g1 g2,
     Sector.computeSector o1 = Return g1 /\ Sector.computeSector o2 = Return g2 /\
     indices g1 = indices g2 /\
     length (values (position g1)) = length (values (position g2))).
Proof.
  intros Hsa Hg.
  assert (Hn : Sector.numPts o1 = Sector.numPts o2)
    by (unfold Sector.numPts; rewrite Hsa, Hg; reflexivity).
  destruct (Z.le_gt_cases (Sector.numPts o1) 0) as [Hle|Hgt].
  - left. split; apply computeSector_no_samples; lia.
  - right. do 2 eexists.
    split; [apply computeSector_closed; lia|].
    split; [apply computeSector_closed; lia|].
    cbn [indices position values]. rewrite Hn. split; [reflexivity|].
    rewrite !length_app, !arcPoints_length. reflexivity.
Qed.

Lemma computeSector_indices_independent_witness :
  exists g1 g2,
    Sector.computeSector coarseSector = Return g1 /\
    Sector.computeSector
      {| Sector.radius := 7%R; Sector.sectorAngle := (1 / 2)%R;
         Sector.rotation := 90%R; Sector.granularity := (1 / 8)%R |} = Return g2 /\
    indices g1 = indices g2.
Proof.
  destruct (computeSector_indices_independent coarseSector
              {| Sector.radius := 7%R; Sector.sectorAngle := (1 / 2)%R;
                 Sector.rotation := 90%R; Sector.granularity := (1 / 8)%R |}
              eq_refl eq_refl) as [[Hthrow _] | (g1 & g2 & H1 & H2 & Hidx & _)].
  - exfalso.
    rewrite computeSector_closed in Hthrow
      by (rewrite coarseSector_numPts; lia).
    discriminate Hthrow.
  - exists g1, g2. auto.
Defined.

(** X20: the ring constructor tests the outer radius before the inner
    one and throws at the first test that fails, before any outline is
    built: without an options object the message is "outerRadius must be
    specified!"; an outer radius <= 0 is reported whatever the inner radius
    is; with a positive outer radius a missing inner radius, and an inner
    radius <= 0 or >= the outer one, have their own messages. *)
Theorem RingGeometry_first_error {EllipseOutline : Type}
    (newEllipseOutlineGeometry : EllipseOutlineGeometry.Options -> Completion EllipseOutline)
    (options : Ring.Options) (a : R) :
  Ring.outerRadius options = JsNumber a ->
  Ring.RingGeometry _ newEllipseOutlineGeometry None =
    Throw (DeveloperError "outerRadius must be specified!") /\
  ((a <= 0)%R ->
   Ring.RingGeometry _ newEllipseOutlineGeometry (Some options) =
     Throw (DeveloperError "outerRadius must be a positive number")) /\
  ((0 < a)%R -> Ring.innerRadius options = JsUndefined ->
   Ring.RingGeometry _ newEllipseOutlineGeometry (Some options) =
     Throw (DeveloperError "innerRadius must be specified!")) /\
  ((0 < a)%R ->
   forall b, Ring.innerRadius options = JsNumber b -> (b <= 0)%R \/ (a <= b)%R ->
   Ring.RingGeometry _ newEllipseOutlineGeometry (Some options) =
     Throw (DeveloperError "innerRadius must be a positive number and less than outerRadius")).
Proof.
  intros Ea. split; [reflexivity|].
  unfold Ring.RingGeometry. cbn [defaultArgument]. rewrite Ea.
  cbn [defined typeof negb].
  change (String.eqb "number" "number") with true. cbn [negb].
  rewrite js_le_number.
  split; [|split].
  - intros Ha. rewrite (bool_decide_true_of (a <= 0)%R) by exact Ha. reflexivity.
  - intros Ha Ei. rewrite (bool_decide_false_of (a <= 0)%R) by lra.
    rewrite Ei. reflexivity.
  - intros Ha b Ei Hb. rewrite (bool_decide_false_of (a <= 0)%R) by lra.
    rewrite Ei. cbn [mbind Completion_bind defined typeof negb].
    change (String.eqb "number" "number") with true. cbn [negb].
    rewrite js_le_number, js_ge_number.
    destruct Hb as [Hb | Hb].
    + rewrite (bool_decide_true_of (b <= 0)%R) by exact Hb. reflexivity.
    + rewrite (bool_decide_true_of (a <= b)%R) by exact Hb.
      rewrite orb_true_r. reflexivity.
Qed.

Lemma RingGeometry_first_error_witness :
  Ring.RingGeometry _ keepOptions (Some (sampleRing (JsNumber (-3)) (JsNumber 0))) =
    Throw (DeveloperError "outerRadius must be a positive number") /\
  Ring.RingGeometry _ keepOptions (Some (sampleRing (JsNumber 7) (JsNumber 5))) =
    Throw (DeveloperError "innerRadius must be a positive number and less than outerRadius").
Proof.
  split.
  - destruct (RingGeometry_first_error keepOptions
                (sampleRing (JsNumber (-3)) (JsNumber 0)) 0 eq_refl) as (_ & Houter & _).
    apply Houter. lra.
  - destruct (RingGeometry_first_error keepOptions
                (sampleRing (JsNumber 7) (JsNumber 5)) 5 eq_refl) as (_ & _ & _ & Hinner).
    apply (Hinner ltac:(lra) 7%R eq_refl). right. lra.
Defined.
